(** * fly-go: the GraphQL / REST client of package [api]

    A shallow embedding of the request builders, the response
    projections and the session bootstrap of [src/api], and the
    properties the specification states about them.

    Conventions of the embedding.
    - A Go [string] that is only stored, compared or bound as a variable
      is a [string].  A query document, which goes through
      [strings.TrimSpace] and a regular expression, is a [gostring]: the
      sequence of code points both library calls read it as.
    - A Go pointer is an [option]; dereferencing [None] is the run-time
      panic of Go, the outcome [Panic].
    - A Go result pair [(T, error)] is a pair whose second component is
      an [option error] ([None] is [nil]).
    - The network (the GraphQL client, [http.Post]), the JSON decoder and
      the process environment are parameters of the operations. *)

From Stdlib Require Import ZArith NArith.
From stdpp Require Import gmap strings list.

Set Warnings "-register-all".
Local Open Scope string_scope.
Local Open Scope list_scope.

(* ===================================================================== *)
(** * Go strings as sequences of code points *)
(* ===================================================================== *)

Module GoString.

(** A [rune] is a Unicode code point.  [strings.TrimSpace] and package
    [regexp] both decode their argument as UTF-8 and treat every byte of
    an invalid sequence as U+FFFD, which is in neither class of white
    space below. *)
Definition rune := N.
Definition gostring := list rune.

(** The document literals of the package are ASCII: one byte, one rune. *)
Definition of_string (s : string) : gostring :=
  Ascii.N_of_ascii <$> String.list_ascii_of_string s.

(** [unicode.IsSpace]: the Latin-1 cases are spelled out by the library,
    the others are the ranges of its [White_Space] table. *)
Definition unicode_IsSpace (r : rune) : bool :=
  if (r <=? 0xFF)%N then
    match r with
    | 0x09 | 0x0A | 0x0B | 0x0C | 0x0D | 0x20 | 0x85 | 0xA0 => true
    | _ => false
    end%N
  else
    ((r =? 0x1680) || ((0x2000 <=? r) && (r <=? 0x200A))
     || ((0x2028 <=? r) && (r <=? 0x2029)) || (r =? 0x202F)
     || (r =? 0x205F) || (r =? 0x3000))%N.

(** [strings.indexFunc(s, f, truth)]: index of the first rune [r] with
    [f r = truth]; Go's [-1] is [None]. *)
Fixpoint indexFunc (s : gostring) (f : rune -> bool) (truth : bool) : option nat :=
  match s with
  | [] => None
  | r :: s' => if Bool.eqb (f r) truth then Some 0 else S <$> indexFunc s' f truth
  end.

(** [strings.lastIndexFunc(s, f, truth)]: index of the last such rune. *)
Fixpoint lastIndexFunc (s : gostring) (f : rune -> bool) (truth : bool) : option nat :=
  match s with
  | [] => None
  | r :: s' =>
      match lastIndexFunc s' f truth with
      | Some i => Some (S i)
      | None => if Bool.eqb (f r) truth then Some 0 else None
      end
  end.

(** [strings.TrimLeftFunc]: [s[i:]] from the first rune that fails [f],
    the empty string when there is none. *)
Definition TrimLeftFunc (s : gostring) (f : rune -> bool) : gostring :=
  match indexFunc s f false with
  | None => []
  | Some i => drop i s
  end.

(** [strings.TrimRightFunc]: [s[0:i]] where [i] is just past the last
    rune that fails [f], [0] when there is none. *)
Definition TrimRightFunc (s : gostring) (f : rune -> bool) : gostring :=
  match lastIndexFunc s f false with
  | Some i => take (S i) s
  | None => take 0 s
  end.

Definition TrimFunc (s : gostring) (f : rune -> bool) : gostring :=
  TrimRightFunc (TrimLeftFunc s f) f.

(** [strings.TrimSpace]: leading and trailing white space removed, "as
    defined by Unicode". *)
Definition TrimSpace (s : gostring) : gostring := TrimFunc s unicode_IsSpace.

(** The Perl class [\s] of package [regexp/syntax]: [[\t\n\f\r ]].  The
    vertical tab and the white space outside ASCII are not in it. *)
Definition perl_space (r : rune) : bool :=
  match r with
  | 0x09 | 0x0A | 0x0C | 0x0D | 0x20 => true
  | _ => false
  end%N.

(** The regular expressions the package compiles: one or more
    characters of a class. *)
Inductive Regexp : Type :=
  | OneOrMore (class : rune -> bool).

(** Scan for [ReplaceAllString]: [in_match] records that the previous
    rune belongs to the match being replaced, so that a match extends to
    the whole run (the repetition is greedy) and is replaced once. *)
Fixpoint replace_scan (class : rune -> bool) (repl : gostring)
    (in_match : bool) (src : gostring) : gostring :=
  match src with
  | [] => []
  | r :: src' =>
      if class r then
        if in_match then replace_scan class repl true src'
        else (repl ++ replace_scan class repl true src')%list
      else r :: replace_scan class repl false src'
  end.

(** [ReplaceAllString(src, repl)] of a compiled [Regexp]: every match, leftmost first
    and not overlapping, is replaced by [repl] (which holds no [$]). *)
Definition ReplaceAllString (re : Regexp) (src repl : gostring) : gostring :=
  match re with
  | OneOrMore class => replace_scan class repl false src
  end.

(** [var compactPattern = regexp.MustCompile(`\s+`)] *)
Definition compactPattern : Regexp := OneOrMore perl_space.

(** [func compactQueryString(q string) string] *)
Definition compactQueryString (q : gostring) : gostring :=
  let q := TrimSpace q in
  ReplaceAllString compactPattern q (of_string " ").

End GoString.
Export GoString.

Arguments compactQueryString : simpl never.


(* ===================================================================== *)
(** * Values, errors and outcomes *)
(* ===================================================================== *)

(** What a request binds to a variable name (Go's [interface{}]): a
    scalar, a slice, a map / a struct under its JSON field names, or the
    nil slice, which is sent as [null]. *)
Inductive value : Type :=
  | VString (s : string)
  | VInt (n : Z)
  | VBool (b : bool)
  | VList (l : list value)
  | VMap (m : gmap string value)
  | VNull.

(** A Go slice that the code binds: [None] is the nil slice, [Some []]
    an empty slice that is not nil.  [append] makes a nil slice a slice. *)
Definition slice_append {A} (s : option (list A)) (x : A) : option (list A) :=
  Some (default [] s ++ [x]).

Definition slice_value {A} (f : A -> value) (s : option (list A)) : value :=
  match s with
  | None => VNull
  | Some l => VList (f <$> l)
  end.

(** Errors.  [errors.New msg] is [errors_New msg]; an error the
    transport or the GraphQL client reports is an [errors_New] too. *)
Inductive error : Type :=
  | errors_New (msg : string)
  | ErrNotFound
  | ErrUnknown.

(** A computation that may stop in Go's run-time panic (here always
    "invalid memory address or nil pointer dereference"). *)
Inductive go (A : Type) : Type :=
  | Return (a : A)
  | Panic.
Arguments Return {A} a.
Arguments Panic {A}.

Global Instance go_ret : MRet go := fun A a => Return a.
Global Instance go_bind : MBind go := fun A B f m =>
  match m with
  | Return a => f a
  | Panic => Panic
  end.

(** [*p] for a pointer [p]. *)
Definition deref {A} (p : option A) : go A :=
  match p with
  | Some a => Return a
  | None => Panic
  end.

(** The process environment; [os.Getenv] gives the empty string for an unset name. *)
Definition environ := gmap string string.
Definition Getenv (env : environ) (key : string) : string :=
  default "" (env !! key).

(* ===================================================================== *)
(** * The GraphQL request (package [graphql]) and the client *)
(* ===================================================================== *)

(** [graphql.Request]: the document, the variables, the HTTP header. *)
Record Request : Type := mkRequest {
  q : gostring;
  vars : gmap string value;
  Header : gmap string string
}.

Definition graphql_NewRequest (q : gostring) : Request :=
  {| q := q; vars := ∅; Header := ∅ |}.

(** [req.Var(key, value)] *)
Definition Var (req : Request) (key : string) (v : value) : Request :=
  {| q := q req; vars := <[key := v]> (vars req); Header := Header req |}.

(** [req.Header.Set(key, v)] *)
Definition Header_Set (req : Request) (key v : string) : Request :=
  {| q := q req; vars := vars req; Header := <[key := v]> (Header req) |}.

(** [type Client struct]: the HTTP and GraphQL clients it holds are the
    transport parameter of section [Transport] below. *)
Record Client : Type := mkClient {
  accessToken : string
}.

(** [func (c *Client) NewRequest(q string) *graphql.Request] *)
Definition NewRequest (c : Client) (q : gostring) : Request :=
  let q := compactQueryString q in
  graphql_NewRequest q.

(* ===================================================================== *)
(** * Response types *)
(* ===================================================================== *)

(** The declarations of [DNSRecord], [DNSZone] and [WireGuardPeer], of
    the fields [DNSZones], [DNSZone] and [WireGuardPeers] of
    [Organization] and of the fields [Organization] and [DNSZone] of the
    envelope [Query] are not part of the sources.  Their fields are those
    the documents select; their shapes are fixed by their use in
    [resource_dns.go] and [resource_wireguard.go]: what is compared with
    [nil] is a pointer, [*x.Nodes] makes [Nodes] a pointer to a slice,
    and the result types make the elements of the slices pointers. *)

(** Modelled from the spec: [type DNSRecord struct] is missing from the
    sources; a flat record of the remote object. *)
Record DNSRecord : Type := mkDNSRecord {
  DNSRecord_ID : string;
  DNSRecord_Name : string;
  DNSRecord_Type : string;
  DNSRecord_TTL : Z
}.

(** Modelled from the spec: [type DNSZone struct] is missing from the
    sources; [Records.Nodes] is dereferenced by [GetDNSRecords]. *)
Record DNSZone : Type := mkDNSZone {
  DNSZone_ID : string;
  DNSZone_Domain : string;
  DNSZone_CreatedAt : string;
  DNSZone_Records_Nodes : option (list (option DNSRecord))
}.

(** Modelled from the spec: [type WireGuardPeer struct] is missing from
    the sources; a flat record of the remote object. *)
Record WireGuardPeer : Type := mkWireGuardPeer {
  WireGuardPeer_ID : string;
  WireGuardPeer_Name : string;
  WireGuardPeer_Pubkey : string;
  WireGuardPeer_Region : string;
  WireGuardPeer_Peerip : string
}.

(** [type Organization struct { ID; Name; Slug }] of [types.go], and the
    three fields the DNS and WireGuard accessors read, whose declaration
    is missing from the sources. *)
Record Organization : Type := mkOrganization {
  Organization_ID : string;
  Organization_Name : string;
  Organization_Slug : string;
  Organization_DNSZones_Nodes : option (list (option DNSZone));
  Organization_DNSZone : option DNSZone;
  Organization_WireGuardPeers_Nodes : option (list (option WireGuardPeer))
}.

(** [type App struct]: the scalar fields and the organization; the
    list-valued fields ([Tasks], [Secrets], ...) are read by none of
    the projections below. *)
Record App : Type := mkApp {
  App_ID : string;
  App_Name : string;
  App_Status : string;
  App_Version : Z;
  App_AppURL : string;
  App_Organization : Organization
}.

(** [type Query struct]: the envelope every GraphQL response is decoded
    into, restricted to the fields the projections below read: [Apps]
    and [CreateApp] of [types.go], and the pointers [Organization] and
    [DNSZone], whose declaration is missing from the sources. *)
Record Query : Type := mkQuery {
  Query_Apps_Nodes : list App;
  Query_CreateApp_App : App;
  Query_Organization : option Organization;
  Query_DNSZone : option DNSZone
}.

(** [type CreateAppInput struct] with its JSON field names. *)
Record CreateAppInput : Type := mkCreateAppInput {
  CreateAppInput_OrganizationID : string;
  CreateAppInput_Runtime : string;
  CreateAppInput_Name : string
}.

Definition CreateAppInput_json (i : CreateAppInput) : value :=
  VMap {[ "organizationId" := VString (CreateAppInput_OrganizationID i);
          "runtime" := VString (CreateAppInput_Runtime i);
          "name" := VString (CreateAppInput_Name i) ]}.

(** [type SetSecretsInputSecret struct] and [type SetSecretsInput struct] *)
Record SetSecretsInputSecret : Type := mkSetSecretsInputSecret {
  SetSecretsInputSecret_Key : string;
  SetSecretsInputSecret_Value : string
}.

Record SetSecretsInput : Type := mkSetSecretsInput {
  SetSecretsInput_AppID : string;
  SetSecretsInput_Secrets : option (list SetSecretsInputSecret)
}.

Definition SetSecretsInputSecret_json (s : SetSecretsInputSecret) : value :=
  VMap {[ "key" := VString (SetSecretsInputSecret_Key s);
          "value" := VString (SetSecretsInputSecret_Value s) ]}.

Definition SetSecretsInput_json (i : SetSecretsInput) : value :=
  VMap {[ "appId" := VString (SetSecretsInput_AppID i);
          "secrets" := slice_value SetSecretsInputSecret_json (SetSecretsInput_Secrets i) ]}.

(** [type UnsetSecretsInput struct] *)
Record UnsetSecretsInput : Type := mkUnsetSecretsInput {
  UnsetSecretsInput_AppID : string;
  UnsetSecretsInput_Keys : option (list string)
}.

Definition UnsetSecretsInput_json (i : UnsetSecretsInput) : value :=
  VMap {[ "appId" := VString (UnsetSecretsInput_AppID i);
          "keys" := slice_value VString (UnsetSecretsInput_Keys i) ]}.

(* ===================================================================== *)
(** * The documents

    One raw string literal per operation, byte for byte as in the
    sources (indentation and line breaks included). *)
(* ===================================================================== *)

Definition dquote : string := String (Ascii.ascii_of_nat 34) EmptyString.

(** The document of [GetCurrentUser], types.go. *)
Definition GetCurrentUser_query : gostring := of_string "
		query {
			currentUser {
				email
			}
		}
	".

(** The document of [GetOrganizations], types.go. *)
Definition GetOrganizations_query : gostring := of_string "
		{
			organizations {
				nodes {
					id
					slug
					name
					type
				}
			}
		}
	".

(** The document of [DeployImage], types.go. *)
Definition DeployImage_query : gostring := of_string "
			mutation($input: DeployImageInput!) {
				deployImage(input: $input) {
					release {
						id
						version
						reason
						description
						user {
							id
							email
							name
						}
						createdAt
					}
				}
			}
		".

(** The document of [GetApps], types.go. *)
Definition GetApps_query : gostring := of_string (String.concat dquote ["
		query {
			apps(type: "; "container"; ") {
				nodes {
					id
					name
					organization {
						slug
					}
				}
			}
		}
		"]).

(** The document of [GetApp], types.go. *)
Definition GetApp_query : gostring := of_string "
		query ($appName: String!) {
			app(name: $appName) {
				id
				name
				deployed
				status
				appUrl
				organization {
					slug
				}
				tasks {
					id
					name
					services {
						protocol
						port
						internalPort
						filters
					}
				}
				ipAddresses {
					nodes {
						id
						address
						type
					}
				}
			}
		}
	".

(** The document of [GetAppReleases], types.go. *)
Definition GetAppReleases_query : gostring := of_string "
		query ($appName: String!, $limit: Int!) {
			app(name: $appName) {
				releases(first: $limit) {
					nodes {
						id
						version
						reason
						description
						user {
							id
							email
							name
						}	
						createdAt
					}
				}
			}
		}
	".

(** The document of [SetSecrets], types.go. *)
Definition SetSecrets_query : gostring := of_string "
		mutation($input: SetSecretsInput!) {
			setSecrets(input: $input) {
				release {
					id
					version
					reason
					description
					user {
						id
						email
						name
					}
					createdAt
				}
			}
		}
	".

(** The document of [UnsetSecrets], types.go. *)
Definition UnsetSecrets_query : gostring := of_string "
		mutation($input: UnsetSecretsInput!) {
			unsetSecrets(input: $input) {
				release {
					id
					version
					reason
					description
					user {
						id
						email
						name
					}
					createdAt
				}
			}
		}
	".

(** The document of [GetAppSecrets], types.go. *)
Definition GetAppSecrets_query : gostring := of_string "
		query ($appName: String!) {
			app(name: $appName) {
				secrets {
					name
					digest
					createdAt
				}
			}
		}
	".

(** The document of [CreateApp], types.go. *)
Definition CreateApp_query : gostring := of_string "
		mutation($input: CreateAppInput!) {
			createApp(input: $input) {
				app {
					id
					name
					organization {
						slug
					}
				}
			}
		}
	".

(** The document of [GetAppWithTasks], types.go. *)
Definition GetAppWithTasks_query : gostring := of_string "
		query($appName: String!) {
			app(name: $appName) {
				deployed
				tasks {
					id
					name
					status
					servicesSummary
					allocations {
						id
						version
						status
						desiredStatus
						region
						createdAt
					}
				}
			}
		}
	".

(** The document of [CreateSignedUrls], types.go. *)
Definition CreateSignedUrls_query : gostring := of_string "
		mutation($appId: ID!, $filename: String!) {
			createSignedUrl(appId: $appId, filename: $filename) {
				getUrl
				putUrl
			}
		}
	".

(** The document of [CreateBuild], types.go. *)
Definition CreateBuild_query : gostring := of_string "
		mutation($appId: ID!, $sourceUrl: String!, $sourceType: UrlSource!) {
			createBuild(appId: $appId, sourceUrl: $sourceUrl, sourceType: $sourceType) {
				build {
					id
					inProgress
					status
					user {
						id
						name
						email
					}
					createdAt
					updatedAt
				}
			}
		}
	".

(** The document of [ListBuilds], types.go. *)
Definition ListBuilds_query : gostring := of_string "
		query($appName: String!) {
			app(name: $appName) {
				builds {
					nodes {
						id
						inProgress
						status
						user {
							id
							name
							email
						}
						createdAt
						updatedAt
					}
				}
			}
		}
	".

(** The document of [GetBuild], types.go. *)
Definition GetBuild_query : gostring := of_string "
		query($id: ID!) {
			build: node(id: $id) {
				id
				__typename
				... on Build {
					inProgress
					status
					logs
					user {
						id
						name
						email
					}
					createdAt
					updatedAt
				}
			}
		}
	".

(** The document of [GetDNSZones], resource_dns.go. *)
Definition GetDNSZones_query : gostring := of_string "
		query($slug: String!) {
			organization(slug: $slug) {
				dnsZones {
					nodes {
						id
						domain
						createdAt
					}
				}
			}
		}
	".

(** The document of [FindDNSZone], resource_dns.go. *)
Definition FindDNSZone_query : gostring := of_string "
		query($slug: String!, $domain: String!) {
			organization(slug: $slug) {
				dnsZone(domain: $domain) {
					id
					domain
					createdAt
					organization {
						id
						slug
						name
					}
				}
			}
		}
	".

(** The document of [CreateDNSZone], resource_dns.go. *)
Definition CreateDNSZone_query : gostring := of_string "
		mutation($input: CreateDnsZoneInput!) {
			createDnsZone(input: $input) {
				zone {
					id
					domain
					createdAt
				}
			}
		}
	".

(** The document of [DeleteDNSZone], resource_dns.go. *)
Definition DeleteDNSZone_query : gostring := of_string "
		mutation($input: DeleteDnsZoneInput!) {
			deleteDnsZone(input: $input) {
				clientMutationId
			}
		}
	".

(** The document of [GetDNSRecords], resource_dns.go. *)
Definition GetDNSRecords_query : gostring := of_string "
		query($zoneId: ID!) {
			dnsZone: node(id: $zoneId) {
				... on DnsZone {
					records {
						nodes {
							id
							fqdn
							name
							type
							ttl
							values
							isApex
							isWildcard
							isSystem
							createdAt
							updatedAt
						}
					}
				}
			}
		}
	".

(** The document of [ExportDNSRecords], resource_dns.go. *)
Definition ExportDNSRecords_query : gostring := of_string "
		mutation($input: ExportDnsZoneInput!) {
			exportDnsZone(input: $input) {
				contents
			}
		}
	".

(** The document of [ImportDNSRecords], resource_dns.go. *)
Definition ImportDNSRecords_query : gostring := of_string "
		mutation($input: ImportDnsZoneInput!) {
			importDnsZone(input: $input) {
				results {
					created
					deleted
					updated
					skipped
					type
				}
			}
		}
	".

(** The document of [PlatformRegions], resource_platform.go. *)
Definition PlatformRegions_query : gostring := of_string "
		query {
			platform {
				requestRegion
				regions {
					name
					code
					gatewayAvailable
				}
			}
		}
	".

(** The document of [PlatformRegionsAll], resource_platform.go. *)
Definition PlatformRegionsAll_query : gostring := of_string "
		query {
			platform {
				regions {
					name
					code
					latitude
					longitude
					gatewayAvailable
				}
			}
		}
	".

(** The document of [PlatformVMSizes], resource_platform.go. *)
Definition PlatformVMSizes_query : gostring := of_string "
		query {
			platform {
				vmSizes {
					name
					cpuCores
					memoryGb
					memoryMb
					priceMonth
					priceSecond
				}
			}
		}
	".

(** The document of [GetLoggedCertificates], resource_ssh.go. *)
Definition GetLoggedCertificates_query : gostring := of_string "
query($slug: String!) { 
  organization(slug: $slug) { 
    loggedCertificates { 
      nodes { 
        root
        cert
      } 
    }
  } 
}
".

(** The document of [EstablishSSHKey], resource_ssh.go. *)
Definition EstablishSSHKey_query : gostring := of_string "
mutation($input: EstablishSSHKeyInput!) { 
  establishSshKey(input: $input) { 
    certificate
  } 
}
".

(** The document of [IssueSSHCertificate], resource_ssh.go. *)
Definition IssueSSHCertificate_query : gostring := of_string "
mutation($input: IssueCertificateInput!) { 
  issueCertificate(input: $input) { 
    certificate, key
  } 
}
".

(** The document of [GetWireGuardPeerStatus], resource_wireguard.go. *)
Definition GetWireGuardPeerStatus_query : gostring := of_string "
query($slug: String!, $name: String!) {
  organization(slug: $slug) {
    wireGuardPeer(name: $name) {
      gatewayStatus
    }
  }
}
".

(** The document of [GetWireGuardPeer], resource_wireguard.go. *)
Definition GetWireGuardPeer_query : gostring := of_string "
query($slug: String!, $name: String!) {
  organization(slug: $slug) {
    wireGuardPeer(name: $name) {
      id
      name
      pubkey
      region
      peerip
    }
  }
}
".

(** The document of [GetWireGuardPeers], resource_wireguard.go. *)
Definition GetWireGuardPeers_query : gostring := of_string "
query($slug: String!) {
  organization(slug: $slug) {
    wireGuardPeers {
      nodes {
        id
        name
        pubkey
        region
        peerip
      }
    }
  }
}
".

(** The document of [CreateWireGuardPeer], resource_wireguard.go. *)
Definition CreateWireGuardPeer_query : gostring := of_string "
mutation($input: AddWireGuardPeerInput!) {
  addWireGuardPeer(input: $input) {
    peerip
    endpointip
    pubkey
  }
}
".

(** The document of [RemoveWireGuardPeer], resource_wireguard.go. *)
Definition RemoveWireGuardPeer_query : gostring := of_string "
mutation($input: RemoveWireGuardPeerInput!) {
  removeWireGuardPeer(input: $input) {
    organization {
      id
    }
  }
}
".

(** The document of [CreateDelegatedWireGuardToken], resource_wireguard.go. *)
Definition CreateDelegatedWireGuardToken_query : gostring := of_string "
mutation($input: CreateDelegatedWireGuardTokenInput!) {
  createDelegatedWireGuardToken(input: $input) {
    token
  }
}
".

(** The document of [DeleteDelegatedWireGuardToken], resource_wireguard.go. *)
Definition DeleteDelegatedWireGuardToken_query : gostring := of_string "
mutation($input: DeleteDelegatedWireGuardTokenInput!) {
  deleteDelegatedWireGuardToken(input: $input) {
    token
  }
}
".

(** The document of [GetDelegatedWireGuardTokens], resource_wireguard.go. *)
Definition GetDelegatedWireGuardTokens_query : gostring := of_string "
query($slug: String!) {
  organization(slug: $slug) {
    delegatedWireGuardTokens {
      nodes {
        name
      }
    }
  }
}
".

(** The document of [ClosestWireguardGatewayRegion], resource_wireguard.go. *)
Definition ClosestWireguardGatewayRegion_query : gostring := of_string "
		query {
			nearestRegion(wireguardGateway: true) {
				code
				name
				gatewayAvailable
			}
		}
".

(** The document of [ValidateWireGuardPeers], resource_wireguard.go. *)
Definition ValidateWireGuardPeers_query : gostring := of_string "
mutation($input: ValidateWireGuardPeersInput!) {
  validateWireGuardPeers(input: $input) {
		invalidPeerIps
	}
}
".

(** The document of [GetDeploymentStatus], src/unnamed/part_000. *)
Definition GetDeploymentStatus_query : gostring := of_string "
		query ($appName: String!, $deploymentId: ID!) {
			app(name: $appName) {
				deploymentStatus(id: $deploymentId) {
					id
					inProgress
					status
					successful
					description
					version
					desiredCount
					placedCount
					healthyCount
					unhealthyCount
					allocations {
						id
						idShort
						status
						region
						desiredStatus
						version
						healthy
            failed
            canary
						checks {
							status
							output
							name
							serviceName
						}
						events {
							timestamp
							type
							message
						}
					}
				}
			}
		}
	".

(** The document of [GetConfig], src/unnamed/part_001. *)
Definition GetConfig_query : gostring := of_string "
			query($appName: String!) {
				app(name: $appName) {
					config {
						definition
					}
				}
			}
		".

(** The document of [ParseConfig], src/unnamed/part_001. *)
Definition ParseConfig_query : gostring := of_string "
			query($appName: String!, $definition: JSON!) {
				app(name: $appName) {
					parseConfig(definition: $definition) {
						definition
						valid
						errors
						services {
							description
						}
					}
				}
			}
		".

(** The document of [ValidateConfig], src/unnamed/part_001. *)
Definition ValidateConfig_query : gostring := of_string "
			query($definition: JSON!) {
				validateConfig(definition: $definition) {
					definition
					valid
					errors
				}
			}
		".



(* ===================================================================== *)
(** * Request construction

    For every operation, the part of its body before the call of [Run]
    or [RunWithContext]: the request it hands to the transport.  The
    [context.Context] argument only travels to the transport and is left
    out.  An operation that reads [org.ID] panics on a nil [org]. *)
(* ===================================================================== *)

Section Requests.
Variable c : Client.

(** ** [types.go] *)

Definition GetCurrentUser_request : Request :=
  NewRequest c GetCurrentUser_query.

Definition GetOrganizations_request : Request :=
  NewRequest c GetOrganizations_query.

Definition DeployImage_request (appName imageTag : string) : Request :=
  let req := NewRequest c DeployImage_query in
  Var req "input" (VMap {[ "appId" := VString appName;
                            "image" := VString imageTag ]}).

Definition GetApps_request : Request :=
  NewRequest c GetApps_query.

Definition GetApp_request (appName : string) : Request :=
  let req := NewRequest c GetApp_query in
  Var req "appName" (VString appName).

Definition GetAppReleases_request (appName : string) (limit : Z) : Request :=
  let req := NewRequest c GetAppReleases_query in
  let req := Var req "appName" (VString appName) in
  Var req "limit" (VInt limit).

(** [secrets] is the Go map in the order [range] happens to visit it.
    [input.Secrets] starts as the nil slice and stays nil when the map
    is empty. *)
Definition SetSecrets_request (appName : string)
    (secrets : list (string * string)) : Request :=
  let input := {| SetSecretsInput_AppID := appName;
                  SetSecretsInput_Secrets := None |} in
  let input :=
    foldl (fun input kv =>
             {| SetSecretsInput_AppID := SetSecretsInput_AppID input;
                SetSecretsInput_Secrets :=
                  slice_append (SetSecretsInput_Secrets input)
                    {| SetSecretsInputSecret_Key := kv.1;
                       SetSecretsInputSecret_Value := kv.2 |} |})
          input secrets in
  let req := NewRequest c SetSecrets_query in
  Var req "input" (SetSecretsInput_json input).

Definition UnsetSecrets_request (appName : string) (keys : option (list string))
    : Request :=
  let req := NewRequest c UnsetSecrets_query in
  Var req "input" (UnsetSecretsInput_json
                     {| UnsetSecretsInput_AppID := appName;
                        UnsetSecretsInput_Keys := keys |}).

Definition GetAppSecrets_request (appName : string) : Request :=
  let req := NewRequest c GetAppSecrets_query in
  Var req "appName" (VString appName).

Definition CreateApp_request (name orgId : string) : Request :=
  let req := NewRequest c CreateApp_query in
  Var req "input" (CreateAppInput_json
                     {| CreateAppInput_Name := name;
                        CreateAppInput_Runtime := "FIRECRACKER";
                        CreateAppInput_OrganizationID := orgId |}).

Definition GetAppWithTasks_request (appName : string) : Request :=
  let req := NewRequest c GetAppWithTasks_query in
  Var req "appName" (VString appName).

Definition CreateSignedUrls_request (appId filename : string) : Request :=
  let req := NewRequest c CreateSignedUrls_query in
  let req := Var req "appId" (VString appId) in
  Var req "filename" (VString filename).

Definition CreateBuild_request (appId sourceUrl sourceType : string) : Request :=
  let req := NewRequest c CreateBuild_query in
  let req := Var req "appId" (VString appId) in
  let req := Var req "sourceUrl" (VString sourceUrl) in
  Var req "sourceType" (VString sourceType).

Definition ListBuilds_request (appName : string) : Request :=
  let req := NewRequest c ListBuilds_query in
  Var req "appName" (VString appName).

Definition GetBuild_request (buildId : string) : Request :=
  let req := NewRequest c GetBuild_query in
  Var req "id" (VString buildId).

(** ** [resource_dns.go] *)

Definition GetDNSZones_request (slug : string) : Request :=
  let req := NewRequest c GetDNSZones_query in
  Var req "slug" (VString slug).

Definition FindDNSZone_request (organizationSlug domain : string) : Request :=
  let req := NewRequest c FindDNSZone_query in
  let req := Var req "slug" (VString organizationSlug) in
  Var req "domain" (VString domain).

Definition CreateDNSZone_request (organizationID domain : string) : Request :=
  let req := NewRequest c CreateDNSZone_query in
  Var req "input" (VMap {[ "organizationId" := VString organizationID;
                            "domain" := VString domain ]}).

Definition DeleteDNSZone_request (zoneID : string) : Request :=
  let req := NewRequest c DeleteDNSZone_query in
  Var req "input" (VMap {[ "dnsZoneId" := VString zoneID ]}).

Definition GetDNSRecords_request (zoneID : string) : Request :=
  let req := NewRequest c GetDNSRecords_query in
  Var req "zoneId" (VString zoneID).

Definition ExportDNSRecords_request (zoneID : string) : Request :=
  let req := NewRequest c ExportDNSRecords_query in
  Var req "input" (VMap {[ "dnsZoneId" := VString zoneID ]}).

Definition ImportDNSRecords_request (zoneID zonefile : string) : Request :=
  let req := NewRequest c ImportDNSRecords_query in
  Var req "input" (VMap {[ "dnsZoneId" := VString zoneID;
                            "zonefile" := VString zonefile ]}).

(** ** [resource_platform.go] *)

Definition PlatformRegions_request : Request :=
  NewRequest c PlatformRegions_query.

Definition PlatformRegionsAll_request : Request :=
  NewRequest c PlatformRegionsAll_query.

Definition PlatformVMSizes_request : Request :=
  NewRequest c PlatformVMSizes_query.

(** ** [resource_ssh.go] *)

Definition GetLoggedCertificates_request (slug : string) : Request :=
  let req := NewRequest c GetLoggedCertificates_query in
  Var req "slug" (VString slug).

Definition EstablishSSHKey_request (org : option Organization)
    (override : bool) : go Request :=
  let req := NewRequest c EstablishSSHKey_query in
  o ← deref org;
  mret (Var req "input" (VMap {[ "organizationId" := VString (Organization_ID o);
                                  "override" := VBool override ]})).

Definition IssueSSHCertificate_request (org : option Organization)
    (email : string) (username : option string) (valid_hours : option Z)
    : go Request :=
  let req := NewRequest c IssueSSHCertificate_query in
  o ← deref org;
  let inputs : gmap string value :=
    {[ "organizationId" := VString (Organization_ID o);
       "email" := VString email ]} in
  let inputs :=
    match username with
    | Some u => <["username" := VString u]> inputs
    | None => inputs
    end in
  let inputs :=
    match valid_hours with
    | Some h => <["validHours" := VInt h]> inputs
    | None => inputs
    end in
  mret (Var req "input" (VMap inputs)).

(** ** [resource_wireguard.go] *)

Definition GetWireGuardPeerStatus_request (slug name : string) : Request :=
  let req := NewRequest c GetWireGuardPeerStatus_query in
  let req := Var req "slug" (VString slug) in
  Var req "name" (VString name).

Definition GetWireGuardPeer_request (slug name : string) : Request :=
  let req := NewRequest c GetWireGuardPeer_query in
  let req := Var req "slug" (VString slug) in
  Var req "name" (VString name).

Definition GetWireGuardPeers_request (slug : string) : Request :=
  let req := NewRequest c GetWireGuardPeers_query in
  Var req "slug" (VString slug).

(** The only reader of the environment.  The message it prints when
    [WG_NATS] is set goes to the standard output and is not modelled. *)
Definition CreateWireGuardPeer_request (env : environ)
    (org : option Organization) (region name pubkey : string) : go Request :=
  let req := NewRequest c CreateWireGuardPeer_query in
  let nats := false in
  let nats := if decide (Getenv env "WG_NATS" ≠ "") then true else nats in
  o ← deref org;
  let inputs : gmap string value :=
    {[ "organizationId" := VString (Organization_ID o);
       "name" := VString name;
       "pubkey" := VString pubkey;
       "nats" := VBool nats ]} in
  let inputs :=
    if decide (region ≠ "") then <["region" := VString region]> inputs
    else inputs in
  mret (Var req "input" (VMap inputs)).

Definition RemoveWireGuardPeer_request (org : option Organization)
    (name : string) : go Request :=
  let req := NewRequest c RemoveWireGuardPeer_query in
  o ← deref org;
  mret (Var req "input" (VMap {[ "organizationId" := VString (Organization_ID o);
                                  "name" := VString name ]})).

Definition CreateDelegatedWireGuardToken_request (org : option Organization)
    (name : string) : go Request :=
  let req := NewRequest c CreateDelegatedWireGuardToken_query in
  o ← deref org;
  mret (Var req "input" (VMap {[ "organizationId" := VString (Organization_ID o);
                                  "name" := VString name ]})).

(** The input map is built (and printed) before the request is made. *)
Definition DeleteDelegatedWireGuardToken_request (org : option Organization)
    (name token : option string) : go Request :=
  let query := DeleteDelegatedWireGuardToken_query in
  o ← deref org;
  let input : gmap string value :=
    {[ "organizationId" := VString (Organization_ID o) ]} in
  input ←
    match name with
    | Some n => mret (<["name" := VString n]> input)
    | None => t ← deref token; mret (<["token" := VString t]> input)
    end;
  let req := NewRequest c query in
  mret (Var req "input" (VMap input)).

Definition GetDelegatedWireGuardTokens_request (slug : string) : Request :=
  let req := NewRequest c GetDelegatedWireGuardTokens_query in
  Var req "slug" (VString slug).

Definition ClosestWireguardGatewayRegion_request : Request :=
  NewRequest c ClosestWireguardGatewayRegion_query.

Definition ValidateWireGuardPeers_request (peerIPs : option (list string))
    : Request :=
  let req := NewRequest c ValidateWireGuardPeers_query in
  Var req "input" (VMap {[ "peerIps" := slice_value VString peerIPs ]}).

(** ** The deployment and configuration operations ([src/unnamed])

    [DeployImageInput] and [Definition] are declared outside the
    sources; their values are bound as they come. *)

Definition DeployImage_input_request (input : value) : Request :=
  let req := NewRequest c DeployImage_query in
  Var req "input" input.

Definition GetDeploymentStatus_request (appName deploymentID : string) : Request :=
  let req := NewRequest c GetDeploymentStatus_query in
  let req := Var req "appName" (VString appName) in
  Var req "deploymentId" (VString deploymentID).

Definition GetConfig_request (appName : string) : Request :=
  let req := NewRequest c GetConfig_query in
  Var req "appName" (VString appName).

Definition ParseConfig_request (appName : string) (definition : value) : Request :=
  let req := NewRequest c ParseConfig_query in
  let req := Var req "appName" (VString appName) in
  Var req "definition" definition.

Definition ValidateConfig_request (appName : string) (definition : value) : Request :=
  let req := NewRequest c ValidateConfig_query in
  Var req "definition" definition.

End Requests.

(* ===================================================================== *)
(** * The operations as one family

    [operation] names the GraphQL operations of the sources, [call] is an
    operation together with its arguments, and [request_of] is the
    request the call hands to the transport, if it gets that far.
    [DeployImage] occurs twice in the sources, once with the application
    name and the image tag and once with a [DeployImageInput]; both are
    kept ([OpDeployImage], [OpDeployImage_input]). *)
(* ===================================================================== *)

Inductive operation : Type :=
  | OpGetCurrentUser
  | OpGetOrganizations
  | OpDeployImage
  | OpGetApps
  | OpGetApp
  | OpGetAppReleases
  | OpSetSecrets
  | OpUnsetSecrets
  | OpGetAppSecrets
  | OpCreateApp
  | OpGetAppWithTasks
  | OpCreateSignedUrls
  | OpCreateBuild
  | OpListBuilds
  | OpGetBuild
  | OpGetDNSZones
  | OpFindDNSZone
  | OpCreateDNSZone
  | OpDeleteDNSZone
  | OpGetDNSRecords
  | OpExportDNSRecords
  | OpImportDNSRecords
  | OpPlatformRegions
  | OpPlatformRegionsAll
  | OpPlatformVMSizes
  | OpGetLoggedCertificates
  | OpEstablishSSHKey
  | OpIssueSSHCertificate
  | OpGetWireGuardPeerStatus
  | OpGetWireGuardPeer
  | OpGetWireGuardPeers
  | OpCreateWireGuardPeer
  | OpRemoveWireGuardPeer
  | OpCreateDelegatedWireGuardToken
  | OpDeleteDelegatedWireGuardToken
  | OpGetDelegatedWireGuardTokens
  | OpClosestWireguardGatewayRegion
  | OpValidateWireGuardPeers
  | OpDeployImage_input
  | OpGetDeploymentStatus
  | OpGetConfig
  | OpParseConfig
  | OpValidateConfig.

Inductive call : Type :=
  | CallGetCurrentUser
  | CallGetOrganizations
  | CallDeployImage (appName imageTag : string)
  | CallGetApps
  | CallGetApp (appName : string)
  | CallGetAppReleases (appName : string) (limit : Z)
  | CallSetSecrets (appName : string) (secrets : list (string * string))
  | CallUnsetSecrets (appName : string) (keys : option (list string))
  | CallGetAppSecrets (appName : string)
  | CallCreateApp (name orgId : string)
  | CallGetAppWithTasks (appName : string)
  | CallCreateSignedUrls (appId filename : string)
  | CallCreateBuild (appId sourceUrl sourceType : string)
  | CallListBuilds (appName : string)
  | CallGetBuild (buildId : string)
  | CallGetDNSZones (slug : string)
  | CallFindDNSZone (organizationSlug domain : string)
  | CallCreateDNSZone (organizationID domain : string)
  | CallDeleteDNSZone (zoneID : string)
  | CallGetDNSRecords (zoneID : string)
  | CallExportDNSRecords (zoneID : string)
  | CallImportDNSRecords (zoneID zonefile : string)
  | CallPlatformRegions
  | CallPlatformRegionsAll
  | CallPlatformVMSizes
  | CallGetLoggedCertificates (slug : string)
  | CallEstablishSSHKey (org : option Organization) (override : bool)
  | CallIssueSSHCertificate (org : option Organization) (email : string) (username : option string) (valid_hours : option Z)
  | CallGetWireGuardPeerStatus (slug name : string)
  | CallGetWireGuardPeer (slug name : string)
  | CallGetWireGuardPeers (slug : string)
  | CallCreateWireGuardPeer (org : option Organization) (region name pubkey : string)
  | CallRemoveWireGuardPeer (org : option Organization) (name : string)
  | CallCreateDelegatedWireGuardToken (org : option Organization) (name : string)
  | CallDeleteDelegatedWireGuardToken (org : option Organization) (name token : option string)
  | CallGetDelegatedWireGuardTokens (slug : string)
  | CallClosestWireguardGatewayRegion
  | CallValidateWireGuardPeers (peerIPs : option (list string))
  | CallDeployImage_input (input : value)
  | CallGetDeploymentStatus (appName deploymentID : string)
  | CallGetConfig (appName : string)
  | CallParseConfig (appName : string) (definition : value)
  | CallValidateConfig (appName : string) (definition : value).

Definition op_of (k : call) : operation :=
  match k with
  | CallGetCurrentUser => OpGetCurrentUser
  | CallGetOrganizations => OpGetOrganizations
  | CallDeployImage _ _ => OpDeployImage
  | CallGetApps => OpGetApps
  | CallGetApp _ => OpGetApp
  | CallGetAppReleases _ _ => OpGetAppReleases
  | CallSetSecrets _ _ => OpSetSecrets
  | CallUnsetSecrets _ _ => OpUnsetSecrets
  | CallGetAppSecrets _ => OpGetAppSecrets
  | CallCreateApp _ _ => OpCreateApp
  | CallGetAppWithTasks _ => OpGetAppWithTasks
  | CallCreateSignedUrls _ _ => OpCreateSignedUrls
  | CallCreateBuild _ _ _ => OpCreateBuild
  | CallListBuilds _ => OpListBuilds
  | CallGetBuild _ => OpGetBuild
  | CallGetDNSZones _ => OpGetDNSZones
  | CallFindDNSZone _ _ => OpFindDNSZone
  | CallCreateDNSZone _ _ => OpCreateDNSZone
  | CallDeleteDNSZone _ => OpDeleteDNSZone
  | CallGetDNSRecords _ => OpGetDNSRecords
  | CallExportDNSRecords _ => OpExportDNSRecords
  | CallImportDNSRecords _ _ => OpImportDNSRecords
  | CallPlatformRegions => OpPlatformRegions
  | CallPlatformRegionsAll => OpPlatformRegionsAll
  | CallPlatformVMSizes => OpPlatformVMSizes
  | CallGetLoggedCertificates _ => OpGetLoggedCertificates
  | CallEstablishSSHKey _ _ => OpEstablishSSHKey
  | CallIssueSSHCertificate _ _ _ _ => OpIssueSSHCertificate
  | CallGetWireGuardPeerStatus _ _ => OpGetWireGuardPeerStatus
  | CallGetWireGuardPeer _ _ => OpGetWireGuardPeer
  | CallGetWireGuardPeers _ => OpGetWireGuardPeers
  | CallCreateWireGuardPeer _ _ _ _ => OpCreateWireGuardPeer
  | CallRemoveWireGuardPeer _ _ => OpRemoveWireGuardPeer
  | CallCreateDelegatedWireGuardToken _ _ => OpCreateDelegatedWireGuardToken
  | CallDeleteDelegatedWireGuardToken _ _ _ => OpDeleteDelegatedWireGuardToken
  | CallGetDelegatedWireGuardTokens _ => OpGetDelegatedWireGuardTokens
  | CallClosestWireguardGatewayRegion => OpClosestWireguardGatewayRegion
  | CallValidateWireGuardPeers _ => OpValidateWireGuardPeers
  | CallDeployImage_input _ => OpDeployImage_input
  | CallGetDeploymentStatus _ _ => OpGetDeploymentStatus
  | CallGetConfig _ => OpGetConfig
  | CallParseConfig _ _ => OpParseConfig
  | CallValidateConfig _ _ => OpValidateConfig
  end.

(** The raw document of an operation. *)
Definition document (o : operation) : gostring :=
  match o with
  | OpGetCurrentUser => GetCurrentUser_query
  | OpGetOrganizations => GetOrganizations_query
  | OpDeployImage => DeployImage_query
  | OpGetApps => GetApps_query
  | OpGetApp => GetApp_query
  | OpGetAppReleases => GetAppReleases_query
  | OpSetSecrets => SetSecrets_query
  | OpUnsetSecrets => UnsetSecrets_query
  | OpGetAppSecrets => GetAppSecrets_query
  | OpCreateApp => CreateApp_query
  | OpGetAppWithTasks => GetAppWithTasks_query
  | OpCreateSignedUrls => CreateSignedUrls_query
  | OpCreateBuild => CreateBuild_query
  | OpListBuilds => ListBuilds_query
  | OpGetBuild => GetBuild_query
  | OpGetDNSZones => GetDNSZones_query
  | OpFindDNSZone => FindDNSZone_query
  | OpCreateDNSZone => CreateDNSZone_query
  | OpDeleteDNSZone => DeleteDNSZone_query
  | OpGetDNSRecords => GetDNSRecords_query
  | OpExportDNSRecords => ExportDNSRecords_query
  | OpImportDNSRecords => ImportDNSRecords_query
  | OpPlatformRegions => PlatformRegions_query
  | OpPlatformRegionsAll => PlatformRegionsAll_query
  | OpPlatformVMSizes => PlatformVMSizes_query
  | OpGetLoggedCertificates => GetLoggedCertificates_query
  | OpEstablishSSHKey => EstablishSSHKey_query
  | OpIssueSSHCertificate => IssueSSHCertificate_query
  | OpGetWireGuardPeerStatus => GetWireGuardPeerStatus_query
  | OpGetWireGuardPeer => GetWireGuardPeer_query
  | OpGetWireGuardPeers => GetWireGuardPeers_query
  | OpCreateWireGuardPeer => CreateWireGuardPeer_query
  | OpRemoveWireGuardPeer => RemoveWireGuardPeer_query
  | OpCreateDelegatedWireGuardToken => CreateDelegatedWireGuardToken_query
  | OpDeleteDelegatedWireGuardToken => DeleteDelegatedWireGuardToken_query
  | OpGetDelegatedWireGuardTokens => GetDelegatedWireGuardTokens_query
  | OpClosestWireguardGatewayRegion => ClosestWireguardGatewayRegion_query
  | OpValidateWireGuardPeers => ValidateWireGuardPeers_query
  | OpDeployImage_input => DeployImage_query
  | OpGetDeploymentStatus => GetDeploymentStatus_query
  | OpGetConfig => GetConfig_query
  | OpParseConfig => ParseConfig_query
  | OpValidateConfig => ValidateConfig_query
  end.

Definition request_of (env : environ) (c : Client) (k : call) : go Request :=
  match k with
  | CallGetCurrentUser => Return (GetCurrentUser_request c)
  | CallGetOrganizations => Return (GetOrganizations_request c)
  | CallDeployImage appName imageTag =>
      Return (DeployImage_request c appName imageTag)
  | CallGetApps => Return (GetApps_request c)
  | CallGetApp appName => Return (GetApp_request c appName)
  | CallGetAppReleases appName limit =>
      Return (GetAppReleases_request c appName limit)
  | CallSetSecrets appName secrets =>
      Return (SetSecrets_request c appName secrets)
  | CallUnsetSecrets appName keys =>
      Return (UnsetSecrets_request c appName keys)
  | CallGetAppSecrets appName => Return (GetAppSecrets_request c appName)
  | CallCreateApp name orgId => Return (CreateApp_request c name orgId)
  | CallGetAppWithTasks appName => Return (GetAppWithTasks_request c appName)
  | CallCreateSignedUrls appId filename =>
      Return (CreateSignedUrls_request c appId filename)
  | CallCreateBuild appId sourceUrl sourceType =>
      Return (CreateBuild_request c appId sourceUrl sourceType)
  | CallListBuilds appName => Return (ListBuilds_request c appName)
  | CallGetBuild buildId => Return (GetBuild_request c buildId)
  | CallGetDNSZones slug => Return (GetDNSZones_request c slug)
  | CallFindDNSZone organizationSlug domain =>
      Return (FindDNSZone_request c organizationSlug domain)
  | CallCreateDNSZone organizationID domain =>
      Return (CreateDNSZone_request c organizationID domain)
  | CallDeleteDNSZone zoneID => Return (DeleteDNSZone_request c zoneID)
  | CallGetDNSRecords zoneID => Return (GetDNSRecords_request c zoneID)
  | CallExportDNSRecords zoneID => Return (ExportDNSRecords_request c zoneID)
  | CallImportDNSRecords zoneID zonefile =>
      Return (ImportDNSRecords_request c zoneID zonefile)
  | CallPlatformRegions => Return (PlatformRegions_request c)
  | CallPlatformRegionsAll => Return (PlatformRegionsAll_request c)
  | CallPlatformVMSizes => Return (PlatformVMSizes_request c)
  | CallGetLoggedCertificates slug =>
      Return (GetLoggedCertificates_request c slug)
  | CallEstablishSSHKey org override => EstablishSSHKey_request c org override
  | CallIssueSSHCertificate org email username valid_hours =>
      IssueSSHCertificate_request c org email username valid_hours
  | CallGetWireGuardPeerStatus slug name =>
      Return (GetWireGuardPeerStatus_request c slug name)
  | CallGetWireGuardPeer slug name =>
      Return (GetWireGuardPeer_request c slug name)
  | CallGetWireGuardPeers slug => Return (GetWireGuardPeers_request c slug)
  | CallCreateWireGuardPeer org region name pubkey =>
      CreateWireGuardPeer_request c env org region name pubkey
  | CallRemoveWireGuardPeer org name => RemoveWireGuardPeer_request c org name
  | CallCreateDelegatedWireGuardToken org name =>
      CreateDelegatedWireGuardToken_request c org name
  | CallDeleteDelegatedWireGuardToken org name token =>
      DeleteDelegatedWireGuardToken_request c org name token
  | CallGetDelegatedWireGuardTokens slug =>
      Return (GetDelegatedWireGuardTokens_request c slug)
  | CallClosestWireguardGatewayRegion =>
      Return (ClosestWireguardGatewayRegion_request c)
  | CallValidateWireGuardPeers peerIPs =>
      Return (ValidateWireGuardPeers_request c peerIPs)
  | CallDeployImage_input input => Return (DeployImage_input_request c input)
  | CallGetDeploymentStatus appName deploymentID =>
      Return (GetDeploymentStatus_request c appName deploymentID)
  | CallGetConfig appName => Return (GetConfig_request c appName)
  | CallParseConfig appName definition =>
      Return (ParseConfig_request c appName definition)
  | CallValidateConfig appName definition =>
      Return (ValidateConfig_request c appName definition)
  end.

(* ===================================================================== *)
(** * Execution and projection *)
(* ===================================================================== *)

Section Transport.

(** [c.client.Run(ctx, req, &resp)] of the GraphQL client: the envelope
    it leaves in [resp] and the error it returns. *)
Variable graphql_Run : Request -> Query * option error.

(** [func (c *Client) RunWithContext(ctx, req) (Query, error)] *)
Definition RunWithContext (c : Client) (req : Request) : Query * option error :=
  let req := Header_Set req "Authorization" ("Bearer " +:+ accessToken c) in
  graphql_Run req.

(** [func (c *Client) Run(req) (Query, error)] *)
Definition Run (c : Client) (req : Request) : Query * option error :=
  RunWithContext c req.

(** [func (c *Client) GetApps() ([]App, error)] *)
Definition GetApps (c : Client) : list App * option error :=
  let req := GetApps_request c in
  let '(data, err) := Run c req in
  match err with
  | Some e => ([], Some e)
  | None => (Query_Apps_Nodes data, None)
  end.

(** [func (c *Client) CreateApp(name, orgId string)], returning [*App, error] *)
Definition CreateApp (c : Client) (name orgId : string) : option App * option error :=
  let req := CreateApp_request c name orgId in
  let '(data, err) := Run c req in
  match err with
  | Some e => (None, Some e)
  | None => (Some (Query_CreateApp_App data), None)
  end.

(** [func (c *Client) GetDNSZones(slug string) ([]*DNSZone, error)] *)
Definition GetDNSZones (c : Client) (slug : string)
    : go (list (option DNSZone) * option error) :=
  let req := GetDNSZones_request c slug in
  let '(data, err) := Run c req in
  match err with
  | Some e => Return ([], Some e)
  | None =>
      o ← deref (Query_Organization data);
      nodes ← deref (Organization_DNSZones_Nodes o);
      Return (nodes, None)
  end.

(** [func (c *Client) FindDNSZone(organizationSlug, domain string)], returning
    [*DNSZone, error] *)
Definition FindDNSZone (c : Client) (organizationSlug domain : string)
    : option DNSZone * option error :=
  let req := FindDNSZone_request c organizationSlug domain in
  let '(data, err) := Run c req in
  match err with
  | Some e => (None, Some e)
  | None =>
      match Query_Organization data with
      | None => (None, Some ErrNotFound)
      | Some o =>
          match Organization_DNSZone o with
          | None => (None, Some ErrNotFound)
          | Some z => (Some z, None)
          end
      end
  end.

(** [func (c *Client) GetDNSRecords(zoneID string) ([]*DNSRecord, error)] *)
Definition GetDNSRecords (c : Client) (zoneID : string)
    : go (list (option DNSRecord) * option error) :=
  let req := GetDNSRecords_request c zoneID in
  let '(data, err) := Run c req in
  match err with
  | Some e => Return ([], Some e)
  | None =>
      match Query_DNSZone data with
      | None => Return ([], Some ErrNotFound)
      | Some z =>
          nodes ← deref (DNSZone_Records_Nodes z);
          Return (nodes, None)
      end
  end.

(** [func (c *Client) GetWireGuardPeers(ctx, slug string) ([]*WireGuardPeer, error)] *)
Definition GetWireGuardPeers (c : Client) (slug : string)
    : go (list (option WireGuardPeer) * option error) :=
  let req := GetWireGuardPeers_request c slug in
  let '(data, err) := RunWithContext c req in
  match err with
  | Some e => Return ([], Some e)
  | None =>
      o ← deref (Query_Organization data);
      nodes ← deref (Organization_WireGuardPeers_Nodes o);
      Return (nodes, None)
  end.

End Transport.

(* ===================================================================== *)
(** * Session bootstrap: [GetAccessToken] *)
(* ===================================================================== *)

(** [http.Response]: the status code and the body. *)
Record Response : Type := mkResponse {
  StatusCode : Z;
  Body : string
}.

(** The target of the decoder, [map[string]map[string]map[string]string].
    Indexing a Go map at a missing key, or a nil map at any key, gives
    the zero value: [!!!] with the empty map and the empty string. *)
Abbreviation token_map := (gmap string (gmap string (gmap string string))).

(** The entry [data.attributes.access_token] of such a map, if it has one. *)
Definition access_token_entry (m : token_map) : option string :=
  m1 ← m !! "data"; m2 ← m1 !! "attributes"; m2 !! "access_token".

(** The value [GetAccessToken] marshals into the body of its request. *)
Definition GetAccessToken_postData (email password otp : string) : value :=
  VMap {[ "data" := VMap {[ "attributes" :=
    VMap {[ "email" := VString email;
            "password" := VString password;
            "otp" := VString otp ]} ]} ]}.

Section Session.

(** [var baseURL string] *)
Variable baseURL : string.

(** [http.Post(url, contentType, body)]; the body is given before
    [json.Marshal] renders it. *)
Variable http_Post : string -> string -> value -> Response + error.

(** [json.NewDecoder(body).Decode(&result)] on the nil map [result]:
    what it leaves in [result], and the error it returns. *)
Variable json_Decode : string -> token_map * option error.

(** [func GetAccessToken(email, password, otp string) (string, error)] *)
Definition GetAccessToken (email password otp : string) : string * option error :=
  let postData := GetAccessToken_postData email password otp in
  let url := baseURL +:+ "/api/v1/sessions" in
  match http_Post url "application/json" postData with
  | inr err => ("", Some err)
  | inl resp =>
      if (StatusCode resp >=? 500)%Z then
        ("", Some (errors_New "An unknown server error occured, please try again"))
      else if (StatusCode resp >=? 400)%Z then
        ("", Some (errors_New "Incorrect email and password combination"))
      else
        let '(result, _) := json_Decode (Body resp) in
        let accessToken := ((result !!! "data") !!! "attributes") !!! "access_token" in
        (accessToken, None)
  end.

End Session.

(* ===================================================================== *)
(** * Package [encoding/json], as far as [GetAccessToken] uses it

    A model of the decoder for the properties that depend on what a body
    is: the scanner reads the first JSON value of the body, token by
    token, and the decoder stores that value into the map of maps. *)
(* ===================================================================== *)

Module JSON.

(** A JSON value. *)
Inductive json : Type :=
  | JNull
  | JBool (b : bool)
  | JNumber (literal : string)
  | JString (s : string)
  | JArray (elems : list json)
  | JObject (members : list (string * json)).

(** The tokens of a JSON text. *)
Inductive token : Type :=
  | TBeginObject | TEndObject | TBeginArray | TEndArray | TColon | TComma
  | TString (s : string)
  | TNumber (literal : string)
  | TTrue | TFalse | TNull.

Definition code (c : Ascii.ascii) : N := Ascii.N_of_ascii c.
Definition byte (n : N) : Ascii.ascii := Ascii.ascii_of_N n.

(** [isSpace] of the scanner: space, tab, carriage return, line feed. *)
Definition isSpace (c : Ascii.ascii) : bool :=
  match code c with
  | 32 | 9 | 13 | 10 => true
  | _ => false
  end%N.

Definition isDigit (c : Ascii.ascii) : bool := ((48 <=? code c) && (code c <=? 57))%N.

Definition isHex (c : Ascii.ascii) : bool :=
  (((48 <=? code c) && (code c <=? 57)) || ((97 <=? code c) && (code c <=? 102))
   || ((65 <=? code c) && (code c <=? 70)))%N.

Fixpoint skip_space (s : list Ascii.ascii) : list Ascii.ascii :=
  match s with
  | c :: t => if isSpace c then skip_space t else s
  | [] => []
  end.

(** The digits at the head of [s], and what follows them. *)
Fixpoint digits (s : list Ascii.ascii) : list Ascii.ascii * list Ascii.ascii :=
  match s with
  | c :: t => if isDigit c then let '(ds, r) := digits t in (c :: ds, r) else ([], s)
  | [] => ([], [])
  end.

Definition prepend (p : list Ascii.ascii) (r : option (list Ascii.ascii * list Ascii.ascii))
    : option (list Ascii.ascii * list Ascii.ascii) :=
  match r with
  | Some (raw, rest) => Some (p ++ raw, rest)
  | None => None
  end.

(** A string literal from after its opening quote: the bytes up to the
    closing quote, escapes as written, and what follows the quote.  The
    scanner refuses a control character, an unknown escape, and [\u] not
    followed by four hexadecimal digits. *)
Definition isSimpleEscape (e : Ascii.ascii) : bool :=
  match code e with
  | 34 | 92 | 47 | 98 | 102 | 110 | 114 | 116 => true
  | _ => false
  end%N.

Fixpoint scan_string (s : list Ascii.ascii) : option (list Ascii.ascii * list Ascii.ascii) :=
  match s with
  | [] => None
  | c :: t =>
      if (code c =? 34)%N then Some ([], t)
      else if (code c =? 92)%N then
        match t with
        | e :: t' =>
            if isSimpleEscape e then prepend [c; e] (scan_string t')
            else if (code e =? 117)%N then
              match t' with
              | h1 :: h2 :: h3 :: h4 :: t'' =>
                  if isHex h1 && isHex h2 && isHex h3 && isHex h4
                  then prepend [c; e; h1; h2; h3; h4] (scan_string t'')
                  else None
              | _ => None
              end
            else None
        | [] => None
        end
      else if (code c <? 32)%N then None
      else prepend [c] (scan_string t)
  end.

(** A number from its first byte: an optional minus sign; a zero, or a
    digit from 1 to 9 and the digits after it; optionally a point and
    one digit or more; optionally [e] or [E], an optional sign, and one
    digit or more.  The longest such text is the number; a number that
    breaks off after its sign, its point or its exponent mark is an
    error. *)
Definition scan_number (s : list Ascii.ascii) : option (list Ascii.ascii * list Ascii.ascii) :=
  let '(sign, s1) :=
    match s with
    | c :: t => if (code c =? 45)%N then ([c], t) else ([], s)
    | [] => ([], s)
    end in
  '(int, s2) ←
    match s1 with
    | c :: t =>
        if (code c =? 48)%N then Some ([c], t)
        else if isDigit c then let '(ds, r) := digits t in Some (c :: ds, r)
        else None
    | [] => None
    end;
  '(frac, s3) ←
    match s2 with
    | c :: t =>
        if (code c =? 46)%N then
          match digits t with
          | ([], _) => None
          | (ds, r) => Some (c :: ds, r)
          end
        else Some ([], s2)
    | [] => Some ([], s2)
    end;
  '(exp, s4) ←
    match s3 with
    | c :: t =>
        if ((code c =? 101) || (code c =? 69))%N then
          let '(sg, t1) :=
            match t with
            | d :: t' => if ((code d =? 43) || (code d =? 45))%N then ([d], t') else ([], t)
            | [] => ([], t)
            end in
          match digits t1 with
          | ([], _) => None
          | (ds, r) => Some (c :: sg ++ ds, r)
          end
        else Some ([], s3)
    | [] => Some ([], s3)
    end;
  Some (sign ++ int ++ frac ++ exp, s4).

(** [s] without the prefix [p], if it starts with it. *)
Fixpoint strip_prefix (p s : list Ascii.ascii) : option (list Ascii.ascii) :=
  match p, s with
  | [], _ => Some s
  | a :: p', b :: s' => if decide (a = b) then strip_prefix p' s' else None
  | _ :: _, [] => None
  end.

(** [utf8.EncodeRune]; a surrogate or a rune beyond U+10FFFF is encoded
    as U+FFFD. *)
Definition EncodeRune (r : N) : list Ascii.ascii :=
  (if r <=? 0x7F then [byte r]
   else if r <=? 0x7FF then
     [byte (0xC0 + r / 64); byte (0x80 + r mod 64)]
   else if (0x10FFFF <? r) || ((0xD800 <=? r) && (r <=? 0xDFFF)) then
     [byte 0xEF; byte 0xBF; byte 0xBD]
   else if r <=? 0xFFFF then
     [byte (0xE0 + r / 4096); byte (0x80 + (r / 64) mod 64); byte (0x80 + r mod 64)]
   else
     [byte (0xF0 + r / 262144); byte (0x80 + (r / 4096) mod 64);
      byte (0x80 + (r / 64) mod 64); byte (0x80 + r mod 64)])%N.

Definition hex_value (c : Ascii.ascii) : N :=
  (if isDigit c then code c - 48
   else if (97 <=? code c) then code c - 87
   else code c - 55)%N.

(** The value of four hexadecimal digits. *)
Definition u4 (h1 h2 h3 h4 : Ascii.ascii) : N :=
  (hex_value h1 * 4096 + hex_value h2 * 256 + hex_value h3 * 16 + hex_value h4)%N.

Definition continuation (lo hi : N) (c : Ascii.ascii) : bool :=
  ((lo <=? code c) && (code c <=? hi))%N.

(** The width of the UTF-8 sequence that starts with the byte [c]
    (128 or more) and goes on with [t], as [utf8.DecodeRune] reads it
    (the table [first] and its [acceptRanges]); 1 for a byte that
    starts no valid sequence, which decodes to U+FFFD. *)
Definition utf8_width (c : Ascii.ascii) (t : list Ascii.ascii) : N :=
  let n := code c in
  let '(size, lo, hi) :=
    (if (0xC2 <=? n) && (n <=? 0xDF) then (2, 0x80, 0xBF)
     else if n =? 0xE0 then (3, 0xA0, 0xBF)
     else if n =? 0xED then (3, 0x80, 0x9F)
     else if (0xE1 <=? n) && (n <=? 0xEF) then (3, 0x80, 0xBF)
     else if n =? 0xF0 then (4, 0x90, 0xBF)
     else if (0xF1 <=? n) && (n <=? 0xF3) then (4, 0x80, 0xBF)
     else if n =? 0xF4 then (4, 0x80, 0x8F)
     else (1, 0, 0))%N in
  match size, t with
  | 2, b1 :: _ => if continuation lo hi b1 then 2 else 1
  | 3, b1 :: b2 :: _ =>
      if continuation lo hi b1 && continuation 0x80 0xBF b2 then 3 else 1
  | 4, b1 :: b2 :: b3 :: _ =>
      if continuation lo hi b1 && continuation 0x80 0xBF b2
         && continuation 0x80 0xBF b3 then 4 else 1
  | _, _ => 1
  end%N.

(** [unquoteBytes] on the inside of a literal the scanner accepted: the
    escapes are replaced by what they stand for, a pair of surrogate
    escapes by its rune and a lone one by U+FFFD, and bytes that are no
    valid UTF-8 by U+FFFD. *)
Fixpoint unquote (s : list Ascii.ascii) : list Ascii.ascii :=
  match s with
  | [] => []
  | c :: t =>
      if (code c =? 92)%N then
        match t with
        | e :: t' =>
            match code e with
            | 98 => byte 8 :: unquote t'
            | 102 => byte 12 :: unquote t'
            | 110 => byte 10 :: unquote t'
            | 114 => byte 13 :: unquote t'
            | 116 => byte 9 :: unquote t'
            | 117 =>
                match t' with
                | h1 :: h2 :: h3 :: h4 :: t'' =>
                    let rr := u4 h1 h2 h3 h4 in
                    if ((0xD800 <=? rr) && (rr <? 0xE000))%N then
                      match t'' with
                      | b :: u :: g1 :: g2 :: g3 :: g4 :: t''' =>
                          let rr1 := u4 g1 g2 g3 g4 in
                          if ((code b =? 92) && (code u =? 117))%N
                             && isHex g1 && isHex g2 && isHex g3 && isHex g4
                             && ((rr <? 0xDC00) && (0xDC00 <=? rr1) && (rr1 <? 0xE000))%N
                          then EncodeRune ((rr - 0xD800) * 1024 + (rr1 - 0xDC00)
                                           + 0x10000)%N ++ unquote t'''
                          else EncodeRune 0xFFFD%N ++ unquote t''
                      | _ => EncodeRune 0xFFFD%N ++ unquote t''
                      end
                    else EncodeRune rr ++ unquote t''
                | _ => []
                end
            | _ => e :: unquote t'
            end%N
        | [] => []
        end
      else if (code c <? 128)%N then c :: unquote t
      else
        match utf8_width c t, t with
        | 2, b1 :: t1 => c :: b1 :: unquote t1
        | 3, b1 :: b2 :: t2 => c :: b1 :: b2 :: unquote t2
        | 4, b1 :: b2 :: b3 :: t3 => c :: b1 :: b2 :: b3 :: unquote t3
        | _, _ => EncodeRune 0xFFFD%N ++ unquote t
        end%N
  end.

(** The next token of [s], after the white space before it, and what
    follows it. *)
Definition next_token (s : list Ascii.ascii) : option (token * list Ascii.ascii) :=
  match skip_space s with
  | [] => None
  | c :: t =>
      let n := code c in
      (if n =? 123 then Some (TBeginObject, t)
       else if n =? 125 then Some (TEndObject, t)
       else if n =? 91 then Some (TBeginArray, t)
       else if n =? 93 then Some (TEndArray, t)
       else if n =? 58 then Some (TColon, t)
       else if n =? 44 then Some (TComma, t)
       else if n =? 34 then
         '(raw, rest) ← scan_string t;
         Some (TString (String.string_of_list_ascii (unquote raw)), rest)
       else if n =? 116 then
         rest ← strip_prefix (String.list_ascii_of_string "rue") t; Some (TTrue, rest)
       else if n =? 102 then
         rest ← strip_prefix (String.list_ascii_of_string "alse") t; Some (TFalse, rest)
       else if n =? 110 then
         rest ← strip_prefix (String.list_ascii_of_string "ull") t; Some (TNull, rest)
       else
         '(literal, rest) ← scan_number (c :: t);
         Some (TNumber (String.string_of_list_ascii literal), rest))%N
  end.

(** An array or an object that is open: the elements or members read so
    far, last first, and for an object the key whose value has not been
    read yet. *)
Inductive frame : Type :=
  | FArray (elems : list json)
  | FObject (members : list (string * json)) (key : option string).

(** What token may come next. *)
Inductive mode : Type :=
  | MValue        (* a value *)
  | MValueOrEnd   (* after [[]: a value or []] *)
  | MKeyOrEnd     (* after [{]: a key or [}] *)
  | MKey          (* after a comma in an object: a key *)
  | MColon        (* after a key *)
  | MNext.        (* after a value in an array or an object: a comma or the end *)

Inductive step_result : Type :=
  | StepNext (m : mode) (stack : list frame)
  | StepDone (v : json)
  | StepError.

(** [maxNestingDepth] *)
Definition maxNestingDepth : N := 10000.

Definition push (f : frame) (m : mode) (stack : list frame) : step_result :=
  if (N.of_nat (length stack) <? maxNestingDepth)%N then StepNext m (f :: stack)
  else StepError.

(** A value is complete: it is the value of the text, or goes into the
    innermost open array or object. *)
Definition reduce (v : json) (stack : list frame) : step_result :=
  match stack with
  | [] => StepDone v
  | FArray elems :: stack' => StepNext MNext (FArray (v :: elems) :: stack')
  | FObject members (Some k) :: stack' =>
      StepNext MNext (FObject ((k, v) :: members) None :: stack')
  | FObject _ None :: _ => StepError
  end.

Definition begin_value (tok : token) (stack : list frame) : step_result :=
  match tok with
  | TBeginArray => push (FArray []) MValueOrEnd stack
  | TBeginObject => push (FObject [] None) MKeyOrEnd stack
  | TString s => reduce (JString s) stack
  | TNumber n => reduce (JNumber n) stack
  | TTrue => reduce (JBool true) stack
  | TFalse => reduce (JBool false) stack
  | TNull => reduce JNull stack
  | _ => StepError
  end.

Definition begin_key (tok : token) (stack : list frame) : step_result :=
  match tok, stack with
  | TString k, FObject members None :: stack' =>
      StepNext MColon (FObject members (Some k) :: stack')
  | _, _ => StepError
  end.

(** One token of the grammar. *)
Definition step (m : mode) (stack : list frame) (tok : token) : step_result :=
  match m with
  | MValue => begin_value tok stack
  | MValueOrEnd =>
      match tok, stack with
      | TEndArray, FArray [] :: stack' => reduce (JArray []) stack'
      | TEndArray, _ => StepError
      | _, _ => begin_value tok stack
      end
  | MKeyOrEnd =>
      match tok, stack with
      | TEndObject, FObject [] None :: stack' => reduce (JObject []) stack'
      | TEndObject, _ => StepError
      | _, _ => begin_key tok stack
      end
  | MKey => begin_key tok stack
  | MColon =>
      match tok with
      | TColon => StepNext MValue stack
      | _ => StepError
      end
  | MNext =>
      match tok, stack with
      | TComma, FArray _ :: _ => StepNext MValue stack
      | TEndArray, FArray elems :: stack' => reduce (JArray (reverse elems)) stack'
      | TComma, FObject _ None :: _ => StepNext MKey stack
      | TEndObject, FObject members None :: stack' =>
          reduce (JObject (reverse members)) stack'
      | _, _ => StepError
      end
  end.

(** What reading the first value of a text comes to: the value and the
    text after it; no value, for an invalid character or the end of the
    text before a value is complete; or no more fuel, which does not
    happen ([JSONFacts.first_value_total]). *)
Inductive outcome : Type :=
  | Done (v : json) (rest : list Ascii.ascii)
  | SyntaxError
  | OutOfFuel.

(** Tokens are read until the first value is complete; what follows it
    is not looked at. *)
Fixpoint scan (fuel : nat) (m : mode) (stack : list frame) (s : list Ascii.ascii) : outcome :=
  match fuel with
  | 0 => OutOfFuel
  | S fuel =>
      match next_token s with
      | None => SyntaxError
      | Some (tok, rest) =>
          match step m stack tok with
          | StepError => SyntaxError
          | StepDone v => Done v rest
          | StepNext m' stack' => scan fuel m' stack' rest
          end
      end
  end.

(** The first value of a text ([Decoder.readValue]): every token takes
    at least one byte, so the fuel is enough. *)
Definition first_value (s : list Ascii.ascii) : outcome :=
  scan (S (length s)) MValue [] s.


Definition type_error : error := errors_New "json: cannot unmarshal into Go value".

(** [d.saveError]: the first error is kept. *)
Definition saveError (saved e : option error) : option error :=
  match saved with
  | Some _ => saved
  | None => e
  end.

(** A value stored into a Go [string]: a string is stored, [null]
    leaves the zero value, anything else is a type error and leaves it. *)
Definition unmarshal_string (v : json) : string * option error :=
  match v with
  | JString s => (s, None)
  | JNull => ("", None)
  | _ => ("", Some type_error)
  end.

(** A value stored into a Go map with string keys that is nil: an
    object makes a map, each member stored into a fresh element and put
    under its key (a later key replaces an earlier one), an error in an
    element saved and the decoding carried on; [null] leaves the map nil;
    anything else is a type error and leaves it nil. *)
Definition unmarshal_map {A} (elem : json -> A * option error) (v : json)
    : gmap string A * option error :=
  match v with
  | JObject members =>
      foldl (fun acc kx =>
               let '(a, e) := elem kx.2 in
               (<[kx.1 := a]> acc.1, saveError acc.2 e))
            (∅, None) members
  | JNull => (∅, None)
  | _ => (∅, Some type_error)
  end.

(** [d.unmarshal(&result)] for [result] of type
    [map[string]map[string]map[string]string]. *)
Definition unmarshal (v : json) : token_map * option error :=
  unmarshal_map (unmarshal_map (unmarshal_map unmarshal_string)) v.

(** [json.NewDecoder(body).Decode(&result)] on the nil map [result]:
    the first value of the body is read and stored; when there is none
    (a syntax error, or the end of the body before the value is
    complete), nothing is stored and an error is returned. *)
Definition Decode (body : string) : token_map * option error :=
  match first_value (String.list_ascii_of_string body) with
  | Done v _ => unmarshal v
  | _ => (∅, Some (errors_New "json: invalid character or unexpected end of JSON input"))
  end.

End JSON.

(** A body that is one JSON object with the token, and then text that
    is no JSON. *)
Definition stub_body_token_then_garbage : string :=
  String.concat dquote
    ["{"; "data"; ":{"; "attributes"; ":{"; "access_token"; ":"; "tok-123";
     "}}} and no JSON after it"].

(* ===================================================================== *)
(** * Stub servers

    Go's zero values, a GraphQL transport that answers every request
    with a given envelope, an HTTP server that answers every request
    with a given response, and a decoder that rejects every body and
    leaves the map nil. *)
(* ===================================================================== *)

Definition zero_Organization : Organization :=
  mkOrganization "" "" "" None None None.

Definition zero_App : App := mkApp "" "" "" 0 "" zero_Organization.

Definition zero_Query : Query := mkQuery [] zero_App None None.

Definition stub_Run (data : Query) : Request -> Query * option error :=
  fun _ => (data, None).


(** A transport that answers with the envelope only the requests that
    carry the bearer token, and rejects the others with [fallback]. *)
Definition stub_Run_authenticated (tok : string) (data : Query) (fallback : error)
    : Request -> Query * option error :=
  fun req =>
    if decide (Header req !! "Authorization" = Some ("Bearer " +:+ tok))
    then (data, None) else (zero_Query, Some fallback).

Definition stub_Post (resp : Response) : string -> string -> value -> Response + error :=
  fun _ _ _ => inl resp.

Definition stub_Decode_invalid : string -> token_map * option error :=
  fun _ => (∅, Some (errors_New "invalid character 'o' in literal null (expecting 'u')")).

(** A decoder for the stub bodies: the body [ok:<token>] decodes to the
    map with that token, any other body is rejected. *)
Definition stub_Decode (body : string) : token_map * option error :=
  if String.prefix "ok:" body then
    let tok := String.substring 3 (String.length body - 3) body in
    ({[ "data" := {[ "attributes" := {[ "access_token" := tok ]} ]} ]}, None)
  else stub_Decode_invalid body.

(* ===================================================================== *)
(** * The normalisation in the words of the specification

    "Surrounding whitespace trimmed, internal runs of whitespace
    collapsed to single spaces", for a class [ws] of white space. *)
(* ===================================================================== *)

Module NormalizeSpec.

Fixpoint drop_while {A} (p : A -> bool) (l : list A) : list A :=
  match l with
  | [] => []
  | x :: l' => if p x then drop_while p l' else l
  end.

(** White space taken off both ends. *)
Definition trim (ws : rune -> bool) (s : gostring) : gostring :=
  reverse (drop_while ws (reverse (drop_while ws s))).

(** The maximal runs of [s]: consecutive runes of the same kind (white
    space or not), each run with its kind. *)
Fixpoint runs (ws : rune -> bool) (s : gostring) : list (bool * gostring) :=
  match s with
  | [] => []
  | r :: s' =>
      match runs ws s' with
      | (kind, run) :: rest =>
          if Bool.eqb (ws r) kind then (kind, r :: run) :: rest
          else (ws r, [r]) :: (kind, run) :: rest
      | [] => [(ws r, [r])]
      end
  end.

Definition space : rune := 0x20%N.

(** A run of white space becomes one space, any other run stays. *)
Definition render (runs : list (bool * gostring)) : gostring :=
  concat ((fun kr : bool * gostring => if kr.1 then [space] else kr.2) <$> runs).

Definition collapse (ws : rune -> bool) (s : gostring) : gostring :=
  render (runs ws s).

(** The normalisation, with one class of white space throughout. *)
Definition normalize (ws : rune -> bool) (q : gostring) : gostring :=
  collapse ws (trim ws q).

(** No white space of class [ws] at either end. *)
Definition trimmed (ws : rune -> bool) (s : gostring) : Prop :=
  (forall r, head s = Some r -> ws r = false) /\
  (forall r, last s = Some r -> ws r = false).

End NormalizeSpec.
Import NormalizeSpec.

(** The map a request binds to the variable [input], if it does. *)
Definition input_of (r : go Request) : option (gmap string value) :=
  match r with
  | Return req =>
      match vars req !! "input" with
      | Some (VMap m) => Some m
      | _ => None
      end
  | Panic => None
  end.

(** The names of that map: the shape of the input, without its values. *)
Definition input_keys (r : go Request) : option (gset string) :=
  dom <$> input_of r.

(* ===================================================================== *)
(** * The rest of the package: client construction, REST calls, regions *)
(* ===================================================================== *)

(** [func NewClient(accessToken string)], returning [*Client, error]: the
    HTTP client and the GraphQL client for [baseURL + /api/v2/graphql]
    it builds are the transport parameter. *)
Definition NewClient (accessToken : string) : option Client * option error :=
  if decide (accessToken = "") then
    (None, Some (errors_New "No api access token available. Please login"))
  else (Some (mkClient accessToken), None).

(** [type CLISessionAuth struct] *)
Record CLISessionAuth : Type := mkCLISessionAuth {
  CLISessionAuth_ID : string;
  CLISessionAuth_AuthURL : string;
  CLISessionAuth_AccessToken : string
}.

(** [var result CLISessionAuth] *)
Definition zero_CLISessionAuth : CLISessionAuth := mkCLISessionAuth "" "" "".

Section CLISession.

Variable baseURL : string.
Variable http_Post : string -> string -> value -> Response + error.

(** [http.Get(url)] *)
Variable http_Get : string -> Response + error.

(** [json.NewDecoder(body).Decode(&result)]: from the body and the value
    of [result] before, the value after and the error returned. *)
Variable json_Decode : string -> CLISessionAuth -> CLISessionAuth * option error.

(** [func StartCLISessionWebAuth(machineName string) (CLISessionAuth, error)] *)
Definition StartCLISessionWebAuth (machineName : string)
    : CLISessionAuth * option error :=
  let result := zero_CLISessionAuth in
  let postData := VMap {[ "name" := VString machineName ]} in
  let url := baseURL +:+ "/api/v1/cli_sessions" in
  match http_Post url "application/json" postData with
  | inr err => (result, Some err)
  | inl resp =>
      if decide (StatusCode resp ≠ 201%Z) then (result, Some ErrUnknown)
      else
        let '(result, _) := json_Decode (Body resp) result in
        (result, None)
  end.

(** [func GetAccessTokenForCLISession(id string) (CLISessionAuth, error)] *)
Definition GetAccessTokenForCLISession (id : string)
    : CLISessionAuth * option error :=
  let result := zero_CLISessionAuth in
  let url := baseURL +:+ "/api/v1/cli_sessions/" +:+ id in
  match http_Get url with
  | inr err => (result, Some err)
  | inl resp =>
      if decide (StatusCode resp = 404%Z) then (result, Some ErrNotFound)
      else if decide (StatusCode resp ≠ 200%Z) then (result, Some ErrUnknown)
      else
        let '(result, _) := json_Decode (Body resp) result in
        (result, None)
  end.

End CLISession.

(** [type LogEntry struct] *)
Record LogEntry : Type := mkLogEntry {
  LogEntry_Timestamp : string;
  LogEntry_Message : string;
  LogEntry_Level : string;
  LogEntry_Meta_Instance : string;
  LogEntry_Meta_Region : string
}.

(** [type getLogsResponse struct]: an element of [Data], and the response. *)
Record getLogsResponse_Data : Type := mkGetLogsResponse_Data {
  getLogsResponse_Id : string;
  getLogsResponse_Attributes : LogEntry
}.

Record getLogsResponse : Type := mkGetLogsResponse {
  getLogsResponse_Data_list : list getLogsResponse_Data;
  getLogsResponse_Meta_NextToken : string
}.

(** [http.Request] as [GetAppLogs] makes it: method, URL and header. *)
Record HTTPRequest : Type := mkHTTPRequest {
  HTTPRequest_Method : string;
  HTTPRequest_URL : string;
  HTTPRequest_Header : gmap string string
}.

(** [req.Header.Set(key, v)] *)
Definition HTTPRequest_Header_Set (req : HTTPRequest) (key v : string) : HTTPRequest :=
  {| HTTPRequest_Method := HTTPRequest_Method req;
     HTTPRequest_URL := HTTPRequest_URL req;
     HTTPRequest_Header := <[key := v]> (HTTPRequest_Header req) |}.

(** [url.Values]: [Set] replaces the values of a key by the one given. *)
Abbreviation url_Values := (gmap string (list string)).

Definition Values_Set (v : url_Values) (key val : string) : url_Values :=
  <[key := [val]]> v.

(** The query parameters [GetAppLogs] collects before it encodes them. *)
Definition GetAppLogs_values (nextToken region instanceId : string) : url_Values :=
  let data : url_Values := ∅ in
  let data := Values_Set data "next_token" nextToken in
  let data :=
    if decide (instanceId ≠ "") then Values_Set data "instance" instanceId
    else data in
  let data :=
    if decide (region ≠ "") then Values_Set data "region" region
    else data in
  data.

Section Logs.

Variable baseURL : string.

(** [url.Values.Encode] *)
Variable Values_Encode : url_Values -> string.

(** [http.NewRequest(method, url, nil)]: the request, or nil (with an
    error, which [GetAppLogs] overwrites unread). *)
Variable http_NewRequest : string -> string -> option HTTPRequest.

(** [http.DefaultClient.Do(req)] *)
Variable http_Do : HTTPRequest -> Response + error.

(** [ErrorFromResp], declared outside the sources. *)
Variable ErrorFromResp : Response -> error.

(** [json.NewDecoder(body).Decode(&result)] on the zero [result]. *)
Variable json_Decode : string -> getLogsResponse * option error.

(** The URL [GetAppLogs] asks for. *)
Definition GetAppLogs_url (appName nextToken region instanceId : string) : string :=
  let data := GetAppLogs_values nextToken region instanceId in
  baseURL +:+ "/api/v1/apps/" +:+ appName +:+ "/logs?" +:+ Values_Encode data.

(** [func (c *Client) GetAppLogs(appName, nextToken, region, instanceId string)],
    returning [[]LogEntry, string, error] *)
Definition GetAppLogs (c : Client) (appName nextToken region instanceId : string)
    : go (list LogEntry * string * option error) :=
  let url := GetAppLogs_url appName nextToken region instanceId in
  req ← deref (http_NewRequest "GET" url);
  let req := HTTPRequest_Header_Set req "Authorization"
               ("Bearer " +:+ accessToken c) in
  let entries : list LogEntry := [] in
  match http_Do req with
  | inr err => Return (entries, "", Some err)
  | inl resp =>
      if decide (StatusCode resp ≠ 200%Z) then
        Return (entries, "", Some (ErrorFromResp resp))
      else
        let '(result, _) := json_Decode (Body resp) in
        let entries :=
          foldl (fun entries d => entries ++ [getLogsResponse_Attributes d])
                entries (getLogsResponse_Data_list result) in
        Return (entries, getLogsResponse_Meta_NextToken result, None)
  end.

End Logs.

(** Modelled from the spec: [type Region struct] is missing from the
    sources; a flat record of the remote object with the fields the
    documents of [resource_platform.go] select. *)
Record Region : Type := mkRegion {
  Region_Code : string;
  Region_Name : string;
  Region_GatewayAvailable : bool
}.

(** The field [Platform] of the envelope, as [PlatformRegions] reads it. *)
Record Platform : Type := mkPlatform {
  Platform_RequestRegion : string;
  Platform_Regions : list Region
}.

(** The loop of [PlatformRegions]: the first region with the code. *)
Fixpoint PlatformRegions_loop (regions : list Region) (requestRegion : string)
    : option Region :=
  match regions with
  | [] => None
  | region :: regions' =>
      if decide (Region_Code region = requestRegion) then Some region
      else PlatformRegions_loop regions' requestRegion
  end.

Section PlatformOps.

Variable graphql_Run : Request -> Query * option error.

(** The field [Platform] of [Query], whose declaration is missing from
    the sources. *)
Variable Query_Platform : Query -> Platform.

(** [func (c *Client) PlatformRegions()], returning [[]Region, *Region, error] *)
Definition PlatformRegions (c : Client)
    : list Region * option Region * option error :=
  let req := PlatformRegions_request c in
  let '(data, err) := Run graphql_Run c req in
  match err with
  | Some e => ([], None, Some e)
  | None =>
      let requestRegion : option Region := None in
      let requestRegion :=
        if decide (Platform_RequestRegion (Query_Platform data) ≠ "") then
          PlatformRegions_loop (Platform_Regions (Query_Platform data))
                               (Platform_RequestRegion (Query_Platform data))
        else requestRegion in
      (Platform_Regions (Query_Platform data), requestRegion, None)
  end.

(** [func (c *Client) PlatformRegionsAll() ([]Region, error)] *)
Definition PlatformRegionsAll (c : Client) : list Region * option error :=
  let req := PlatformRegionsAll_request c in
  let '(data, err) := Run graphql_Run c req in
  match err with
  | Some e => ([], Some e)
  | None => (Platform_Regions (Query_Platform data), None)
  end.

End PlatformOps.

(** Which calls pass a nil pointer that the construction of the request
    dereferences. *)
Definition nil_argument (k : call) : bool :=
  match k with
  | CallEstablishSSHKey None _
  | CallIssueSSHCertificate None _ _ _
  | CallCreateWireGuardPeer None _ _ _
  | CallRemoveWireGuardPeer None _
  | CallCreateDelegatedWireGuardToken None _
  | CallDeleteDelegatedWireGuardToken None _ _
  | CallDeleteDelegatedWireGuardToken _ None None => true
  | _ => false
  end.

(** The names each operation binds with [req.Var], as its body lists them. *)
Definition variable_names (o : operation) : gset string :=
  match o with
  | OpGetCurrentUser
  | OpGetOrganizations
  | OpGetApps
  | OpPlatformRegions
  | OpPlatformRegionsAll
  | OpPlatformVMSizes
  | OpClosestWireguardGatewayRegion => ∅
  | OpDeployImage
  | OpSetSecrets
  | OpUnsetSecrets
  | OpCreateApp
  | OpCreateDNSZone
  | OpDeleteDNSZone
  | OpExportDNSRecords
  | OpImportDNSRecords
  | OpEstablishSSHKey
  | OpIssueSSHCertificate
  | OpCreateWireGuardPeer
  | OpRemoveWireGuardPeer
  | OpCreateDelegatedWireGuardToken
  | OpDeleteDelegatedWireGuardToken
  | OpValidateWireGuardPeers
  | OpDeployImage_input => {[ "input" ]}
  | OpGetApp
  | OpGetAppSecrets
  | OpGetAppWithTasks
  | OpListBuilds
  | OpGetConfig => {[ "appName" ]}
  | OpGetAppReleases => {[ "appName"; "limit" ]}
  | OpCreateSignedUrls => {[ "appId"; "filename" ]}
  | OpCreateBuild => {[ "appId"; "sourceUrl"; "sourceType" ]}
  | OpGetBuild => {[ "id" ]}
  | OpGetDNSZones
  | OpGetLoggedCertificates
  | OpGetWireGuardPeers
  | OpGetDelegatedWireGuardTokens => {[ "slug" ]}
  | OpFindDNSZone => {[ "slug"; "domain" ]}
  | OpGetDNSRecords => {[ "zoneId" ]}
  | OpGetWireGuardPeerStatus
  | OpGetWireGuardPeer => {[ "slug"; "name" ]}
  | OpGetDeploymentStatus => {[ "appName"; "deploymentId" ]}
  | OpParseConfig => {[ "appName"; "definition" ]}
  | OpValidateConfig => {[ "definition" ]}
  end.

(** A document in the form the normalisation leaves it in: every rune
    of the class is a space, and no two of them are neighbours. *)
Fixpoint single_spaced (ws : rune -> bool) (after_space : bool) (s : gostring) : bool :=
  match s with
  | [] => true
  | r :: s' =>
      if ws r then negb after_space && bool_decide (r = space) && single_spaced ws true s'
      else single_spaced ws false s'
  end.

(* ===================================================================== *)
(** * Properties of the normalisation of documents *)
(* ===================================================================== *)

Section Trimming.
Variable f : rune -> bool.

Lemma drop_while_snoc_keep (l : gostring) (x : rune) :
  f x = false -> drop_while f (l ++ [x]) = drop_while f l ++ [x].
Proof.
  intros Hx. induction l as [|y l IH]; simpl.
  - by rewrite Hx.
  - destruct (f y); [exact IH | reflexivity].
Qed.

Lemma drop_while_snoc_all (l : gostring) (x : rune) :
  drop_while f l = [] -> drop_while f (l ++ [x]) = if f x then [] else [x].
Proof.
  induction l as [|y l IH]; simpl; [done|].
  destruct (f y); [exact IH | discriminate].
Qed.

Lemma drop_while_snoc_some (l : gostring) (x : rune) :
  drop_while f l <> [] -> drop_while f (l ++ [x]) = drop_while f l ++ [x].
Proof.
  induction l as [|y l IH]; simpl; [done|].
  destruct (f y); [exact IH | reflexivity].
Qed.

Lemma drop_while_head (l : gostring) (r : rune) :
  head (drop_while f l) = Some r -> f r = false.
Proof.
  induction l as [|y l IH]; simpl; [done|].
  destruct (f y) eqn:Hy; [exact IH | simpl; congruence].
Qed.

Lemma drop_while_id (l : gostring) :
  (forall r, head l = Some r -> f r = false) -> drop_while f l = l.
Proof.
  destruct l as [|y l]; simpl; [done|].
  intros H. by rewrite (H y eq_refl).
Qed.

(** [TrimLeftFunc] drops the leading runes that satisfy [f]. *)
Lemma TrimLeftFunc_drop_while (s : gostring) :
  TrimLeftFunc s f = drop_while f s.
Proof.
  unfold TrimLeftFunc. induction s as [|r s IH]; simpl; [done|].
  destruct (f r); simpl; [|done].
  destruct (indexFunc s f false); simpl in *; exact IH.
Qed.

Lemma lastIndexFunc_None (s : gostring) :
  lastIndexFunc s f false = None -> drop_while f (reverse s) = [].
Proof.
  induction s as [|r s IH]; simpl; [done|].
  destruct (lastIndexFunc s f false); [done|].
  destruct (f r) eqn:Hr; simpl; [|done].
  intros _. rewrite reverse_cons, drop_while_snoc_all by auto. by rewrite Hr.
Qed.

(** [TrimRightFunc] drops the trailing runes that satisfy [f]. *)
Lemma TrimRightFunc_drop_while (s : gostring) :
  TrimRightFunc s f = reverse (drop_while f (reverse s)).
Proof.
  unfold TrimRightFunc. induction s as [|r s IH]; simpl; [done|].
  rewrite reverse_cons.
  destruct (lastIndexFunc s f false) as [i|] eqn:Hi.
  - simpl in IH.
    assert (Hne : drop_while f (reverse s) <> []).
    { intros Hnil. rewrite Hnil in IH.
      destruct s; [discriminate Hi | discriminate IH]. }
    rewrite drop_while_snoc_some, reverse_app by done.
    simpl. by rewrite IH.
  - rewrite drop_while_snoc_all by (by apply lastIndexFunc_None).
    destruct (f r); simpl; done.
Qed.

Lemma TrimFunc_trim (s : gostring) : TrimFunc s f = trim f s.
Proof.
  unfold TrimFunc, trim.
  by rewrite TrimRightFunc_drop_while, TrimLeftFunc_drop_while.
Qed.

Lemma trim_trimmed (s : gostring) : trimmed f (trim f s).
Proof.
  unfold trim, trimmed. split; intros r Hr.
  - pose proof (drop_while_head s) as Hhead.
    destruct (drop_while f s) as [|x l]; [done|].
    specialize (Hhead x eq_refl).
    rewrite reverse_cons, drop_while_snoc_keep, reverse_app in Hr by done.
    simpl in Hr. congruence.
  - rewrite last_reverse in Hr. by apply drop_while_head in Hr.
Qed.

Lemma trim_id (s : gostring) : trimmed f s -> trim f s = s.
Proof.
  intros [Hh Hl]. unfold trim.
  rewrite (drop_while_id s Hh), drop_while_id, reverse_involutive; [done|].
  intros r. rewrite head_reverse. apply Hl.
Qed.

End Trimming.

Section Collapsing.
Variable ws : rune -> bool.

(** The scan against the runs: a leading run of white space gives its
    space unless the scan is already inside a match. *)
Lemma replace_scan_runs (s : gostring) (in_match : bool) :
  replace_scan ws [space] in_match s =
  match runs ws s with
  | (true, _) :: rest => (if in_match then [] else [space]) ++ render rest
  | rs => render rs
  end.
Proof.
  revert in_match. induction s as [|r s IH]; intros in_match; simpl; [done|].
  destruct (ws r) eqn:Hr.
  - assert (Hin : replace_scan ws [space] true s =
                  match runs ws s with
                  | (true, _) :: rest => render rest
                  | rs => render rs
                  end).
    { rewrite IH. by destruct (runs ws s) as [|[[] ?] ?]. }
    destruct (runs ws s) as [|[[] run] rest]; simpl;
      destruct in_match; simpl; by rewrite Hin.
  - rewrite IH.
    destruct (runs ws s) as [|[[] run] rest]; simpl; done.
Qed.

(** [ReplaceAllString] with a single space is [collapse]. *)
Lemma ReplaceAllString_collapse (s : gostring) :
  ReplaceAllString (OneOrMore ws) s (of_string " ") = collapse ws s.
Proof.
  unfold collapse. simpl. change (of_string " ") with [space].
  rewrite replace_scan_runs.
  by destruct (runs ws s) as [|[[] run] rest].
Qed.

(** Collapsing what is collapsed changes nothing. *)
Lemma replace_scan_idem (s : gostring) (in_match : bool) :
  ws space = true ->
  replace_scan ws [space] in_match (replace_scan ws [space] in_match s) =
  replace_scan ws [space] in_match s.
Proof.
  intros Hsp. revert in_match.
  induction s as [|r s IH]; intros in_match; simpl; [done|].
  destruct (ws r) eqn:Hr.
  - destruct in_match; simpl; [apply IH|].
    by rewrite Hsp, IH.
  - simpl. by rewrite Hr, IH.
Qed.

Lemma replace_scan_snoc (s : gostring) (r : rune) (in_match : bool) :
  ws r = false ->
  replace_scan ws [space] in_match (s ++ [r]) =
  replace_scan ws [space] in_match s ++ [r].
Proof.
  intros Hr. revert in_match.
  induction s as [|x s IH]; intros in_match; simpl.
  - by rewrite Hr.
  - destruct (ws x); [destruct in_match|]; simpl; by rewrite IH.
Qed.

(** Collapsing the runs of a class keeps a string free of a larger class
    at both ends that way. *)
Lemma replace_scan_trimmed (ws' : rune -> bool) (s : gostring) :
  (forall r, ws r = true -> ws' r = true) ->
  trimmed ws' s -> trimmed ws' (replace_scan ws [space] false s).
Proof.
  intros Hsub [Hh Hl]. split; intros r Hr.
  - destruct s as [|x s]; [done|].
    specialize (Hh x eq_refl). simpl in Hr.
    destruct (ws x) eqn:Hx; [apply Hsub in Hx; congruence|].
    simpl in Hr. congruence.
  - destruct (last s) as [x|] eqn:Hlast.
    + apply last_Some in Hlast as [s' ->].
      specialize (Hl x eq_refl).
      rewrite replace_scan_snoc, last_snoc in Hr.
      * congruence.
      * destruct (ws x) eqn:Hx; [apply Hsub in Hx; congruence|done].
    + apply last_None in Hlast as ->. done.
Qed.

End Collapsing.

Lemma perl_space_IsSpace (r : rune) :
  perl_space r = true -> unicode_IsSpace r = true.
Proof.
  unfold perl_space, unicode_IsSpace.
  repeat (destruct r as [|r]; try done); repeat (destruct r as [r|r|]; try done).
Qed.

Lemma compactQueryString_collapse_trim (q : gostring) :
  compactQueryString q = collapse perl_space (trim unicode_IsSpace q).
Proof.
  unfold compactQueryString, compactPattern, TrimSpace.
  by rewrite ReplaceAllString_collapse, TrimFunc_trim.
Qed.

Lemma compactQueryString_trimmed (q : gostring) :
  trimmed unicode_IsSpace (compactQueryString q).
Proof.
  unfold compactQueryString, compactPattern, TrimSpace. simpl.
  change (of_string " ") with [space].
  apply replace_scan_trimmed; [apply perl_space_IsSpace|].
  rewrite TrimFunc_trim. apply trim_trimmed.
Qed.

Lemma compactQueryString_idempotent (q : gostring) :
  compactQueryString (compactQueryString q) = compactQueryString q.
Proof.
  pose proof (compactQueryString_trimmed q) as Ht.
  unfold compactQueryString at 1. unfold TrimSpace.
  rewrite TrimFunc_trim, trim_id by done.
  unfold compactQueryString, compactPattern. simpl.
  change (of_string " ") with [space].
  by apply replace_scan_idem.
Qed.

Lemma trimmed_weaken (ws ws' : rune -> bool) (s : gostring) :
  (forall r, ws r = true -> ws' r = true) -> trimmed ws' s -> trimmed ws s.
Proof.
  intros Hsub [Hh Hl]. split; intros r Hr.
  - specialize (Hh r Hr). destruct (ws r) eqn:E; [apply Hsub in E; congruence|done].
  - specialize (Hl r Hr). destruct (ws r) eqn:E; [apply Hsub in E; congruence|done].
Qed.

Lemma drop_while_ext (f g : rune -> bool) (l : gostring) :
  (forall r, r ∈ l -> f r = g r) -> drop_while f l = drop_while g l.
Proof.
  induction l as [|x l IH]; intros H; simpl; [done|].
  rewrite <- (H x) by set_solver.
  destruct (f x); [|done]. apply IH. intros r Hr. apply H. set_solver.
Qed.

Lemma drop_while_subseteq (f : rune -> bool) (l : gostring) (r : rune) :
  r ∈ drop_while f l -> r ∈ l.
Proof.
  induction l as [|x l IH]; simpl; [done|].
  destruct (f x); [|done]. intros H. apply IH in H. set_solver.
Qed.

Lemma trim_ext (f g : rune -> bool) (s : gostring) :
  (forall r, r ∈ s -> f r = g r) -> trim f s = trim g s.
Proof.
  intros H. unfold trim.
  rewrite (drop_while_ext f g s H). f_equal.
  apply drop_while_ext. intros r Hr. apply H.
  rewrite elem_of_reverse in Hr. by apply drop_while_subseteq in Hr.
Qed.

(** On a string whose runes the two classes agree on (no vertical tab
    and no white space beyond ASCII), the normalisation is the one of
    the specification with the class of the regular expression. *)
Lemma compactQueryString_normalize_agree (q : gostring) :
  (forall r, r ∈ q -> unicode_IsSpace r = perl_space r) ->
  compactQueryString q = normalize perl_space q.
Proof.
  intros H. rewrite compactQueryString_collapse_trim. unfold normalize.
  by rewrite (trim_ext _ _ q H).
Qed.

(* ===================================================================== *)
(** * C8: what [NewRequest] does to the document *)
(* ===================================================================== *)

(** C8 (as amended).  For every string [q0] passed to [NewRequest], the
    document of the request is [q0] with the Unicode white space of
    [strings.TrimSpace] (vertical tab and the non-ASCII spaces included)
    taken off both ends, and then every maximal run of the characters of
    the class [\s] of the regular expression (tab, line feed, form feed,
    carriage return, space) replaced by one space.  Normalising is
    idempotent, and the document neither starts nor ends with white space
    of either class. *)
Theorem NewRequest_normalizes_document (c : Client) (q0 : gostring) :
  q (NewRequest c q0) = collapse perl_space (trim unicode_IsSpace q0) /\
  NewRequest c (q (NewRequest c q0)) = NewRequest c q0 /\
  trimmed unicode_IsSpace (q (NewRequest c q0)) /\
  trimmed perl_space (q (NewRequest c q0)).
Proof.
  unfold NewRequest, graphql_NewRequest; simpl. split_and!.
  - apply compactQueryString_collapse_trim.
  - by rewrite compactQueryString_idempotent.
  - apply compactQueryString_trimmed.
  - eapply trimmed_weaken; [apply perl_space_IsSpace|].
    apply compactQueryString_trimmed.
Qed.

(** C8 (as stated) fails whichever single class of white space is meant.
    With Unicode white space: in [a VT b] (code points 97, 11, 98) the
    vertical tab is an internal run of white space, yet the document
    keeps it, where the specification gives [a b].  With the class of the
    regular expression: [VT a] (11, 97) has no white space at its ends,
    yet the vertical tab is trimmed. *)
Lemma NewRequest_vertical_tab :
  q (NewRequest (mkClient "token") [97; 11; 98]%N)
    <> normalize unicode_IsSpace [97; 11; 98]%N /\
  q (NewRequest (mkClient "token") [11; 97]%N)
    <> normalize perl_space [11; 97]%N.
Proof. split; vm_compute; discriminate. Qed.

(** No class of white space at all makes the normalisation of C8 (as
    stated) the one the code computes: the vertical tab would have to
    be white space for [VT] alone to normalise to the empty string, and
    then [a VT b] would have to lose it. *)
Lemma compactQueryString_no_single_class :
  ~ exists ws : rune -> bool, forall q0, compactQueryString q0 = normalize ws q0.
Proof.
  intros [ws H].
  pose proof (H [11]%N) as Hv. pose proof (H [97]%N) as Ha.
  pose proof (H [98]%N) as Hb. pose proof (H [97; 11; 98]%N) as Havb.
  unfold normalize, collapse, trim in *.
  change (compactQueryString [11]%N) with ([] : gostring) in Hv.
  change (compactQueryString [97]%N) with [97]%N in Ha.
  change (compactQueryString [98]%N) with [98]%N in Hb.
  change (compactQueryString [97; 11; 98]%N) with [97; 11; 98]%N in Havb.
  cbn in Hv, Ha, Hb, Havb.
  destruct (ws 11%N) eqn:E11, (ws 97%N) eqn:E97, (ws 98%N) eqn:E98;
    repeat (progress (cbn in Hv; rewrite ?E11 in Hv));
    repeat (progress (cbn in Ha; rewrite ?E97 in Ha));
    repeat (progress (cbn in Hb; rewrite ?E98 in Hb));
    repeat (progress (cbn in Havb; rewrite ?E11, ?E97, ?E98 in Havb));
    done.
Qed.

Example NewRequest_vertical_tab_values :
  q (NewRequest (mkClient "token") [97; 11; 98]%N) = [97; 11; 98]%N /\
  normalize unicode_IsSpace [97; 11; 98]%N = [97; 32; 98]%N /\
  q (NewRequest (mkClient "token") [11; 97]%N) = [97]%N /\
  normalize perl_space [11; 97]%N = [11; 97]%N.
Proof. by vm_compute. Qed.

(* ===================================================================== *)
(** * C7: the document depends on the operation alone *)
(* ===================================================================== *)

Lemma q_Var (req : Request) (key : string) (v : value) : q (Var req key v) = q req.
Proof. reflexivity. Qed.

Lemma q_NewRequest (c : Client) (d : gostring) :
  q (NewRequest c d) = compactQueryString d.
Proof. reflexivity. Qed.

(** A request that is built carries the normalised document of its
    operation, whatever the client, the environment and the arguments. *)
Lemma request_of_document (env : environ) (c : Client) (k : call) (r : Request) :
  request_of env c k = Return r ->
  q r = compactQueryString (document (op_of k)).
Proof.
  destruct k; simpl; intros H;
    try (injection H as <-; reflexivity);
    destruct org as [o|]; try discriminate H; simpl in H.
  - injection H as <-; reflexivity.
  - injection H as <-; reflexivity.
  - injection H as <-; reflexivity.
  - injection H as <-; reflexivity.
  - injection H as <-; reflexivity.
  - destruct name as [n|]; [|destruct token as [t|]]; try discriminate H;
      simpl in H; injection H as <-; reflexivity.
Qed.

(** C7.  Two calls of the same operation that each hand a request to the
    transport hand it the same document, whatever their arguments, their
    clients and the environments they run in: the document is the
    normalised literal of the operation, and the arguments reach the
    variables only. *)
Theorem document_independent_of_inputs
    (env1 env2 : environ) (c1 c2 : Client) (k1 k2 : call) (r1 r2 : Request) :
  op_of k1 = op_of k2 ->
  request_of env1 c1 k1 = Return r1 ->
  request_of env2 c2 k2 = Return r2 ->
  q r1 = q r2 /\ q r1 = compactQueryString (document (op_of k1)).
Proof.
  intros Hop H1 H2.
  apply request_of_document in H1, H2. rewrite H1, H2, Hop. done.
Qed.

Lemma document_independent_of_inputs_witness :
  op_of (CallGetApp "alpha") = op_of (CallGetApp "beta") /\
  q (GetApp_request (mkClient "t1") "alpha") =
  q (GetApp_request (mkClient "t2") "beta") /\
  q (GetApp_request (mkClient "t1") "alpha") =
  compactQueryString (document OpGetApp).
Proof.
  split; [reflexivity|].
  apply (document_independent_of_inputs ∅ (<["WG_NATS" := "1"]> ∅)
           (mkClient "t1") (mkClient "t2")
           (CallGetApp "alpha") (CallGetApp "beta"));
    reflexivity.
Defined.

(* ===================================================================== *)
(** * C3, C5, C6: the variables *)
(* ===================================================================== *)

(** The property of a request that C3 is about. *)
Lemma CreateApp_request_runtime (c : Client) (name orgId : string) :
  exists m : gmap string value,
    vars (CreateApp_request c name orgId) !! "input" = Some (VMap m) /\
    m !! "runtime" = Some (VString "FIRECRACKER") /\
    m !! "name" = Some (VString name) /\
    m !! "organizationId" = Some (VString orgId).
Proof.
  eexists. split; [reflexivity|]. by simplify_map_eq.
Qed.

(** C3.  Whatever [name] and [orgId] are, the input [CreateApp] binds to
    its mutation has the key [runtime] with the value [FIRECRACKER] (next
    to [name] and [organizationId], which hold the arguments); and the
    transport sees no other kind of request from [CreateApp]: two
    transports that answer alike every request with that entry make
    [CreateApp] return alike. *)
Theorem CreateApp_runtime_is_firecracker (c : Client) (name orgId : string) :
  (exists m : gmap string value,
     vars (CreateApp_request c name orgId) !! "input" = Some (VMap m) /\
     m !! "runtime" = Some (VString "FIRECRACKER") /\
     m !! "name" = Some (VString name) /\
     m !! "organizationId" = Some (VString orgId)) /\
  (forall run1 run2 : Request -> Query * option error,
     (forall req m,
        vars req !! "input" = Some (VMap m) ->
        m !! "runtime" = Some (VString "FIRECRACKER") ->
        run1 req = run2 req) ->
     CreateApp run1 c name orgId = CreateApp run2 c name orgId).
Proof.
  split; [apply CreateApp_request_runtime|].
  intros run1 run2 Hrun.
  destruct (CreateApp_request_runtime c name orgId) as (m & Hinput & Hruntime & _).
  unfold CreateApp, Run, RunWithContext.
  rewrite (Hrun (Header_Set (CreateApp_request c name orgId) _ _) m);
    [reflexivity | exact Hinput | exact Hruntime].
Qed.

(** C5.  In the input map of [IssueSSHCertificate] the keys [username]
    and [validHours] are present exactly when the pointer is not nil, and
    then hold the value pointed to; in the input map of
    [CreateWireGuardPeer] the key [region] is present exactly when the
    argument is not the empty string, and then holds it.  An omitted
    parameter leaves no entry at all. *)
Theorem optional_parameters_bound_only_when_given
    (c : Client) (env : environ) (o : Organization) (email : string)
    (username : option string) (valid_hours : option Z)
    (region name pubkey : string) :
  (exists m,
     input_of (IssueSSHCertificate_request c (Some o) email username valid_hours)
       = Some m /\
     m !! "username" = VString <$> username /\
     m !! "validHours" = VInt <$> valid_hours) /\
  (exists m,
     input_of (CreateWireGuardPeer_request c env (Some o) region name pubkey)
       = Some m /\
     m !! "region" = if decide (region = "") then None else Some (VString region)).
Proof.
  split; eexists; (split; [reflexivity|]).
  - destruct username, valid_hours; by simplify_map_eq.
  - repeat case_decide; try done; by simplify_map_eq.
Qed.

Lemma request_of_environment (env1 env2 : environ) (c : Client) (k : call) :
  op_of k <> OpCreateWireGuardPeer ->
  request_of env1 c k = request_of env2 c k.
Proof. destruct k; simpl; intros H; done. Qed.

Lemma CreateWireGuardPeer_nats (c : Client) (env : environ) (o : Organization)
    (region name pubkey : string) :
  exists m,
    input_of (CreateWireGuardPeer_request c env (Some o) region name pubkey)
      = Some m /\
    m !! "nats" = Some (VBool (bool_decide (Getenv env "WG_NATS" ≠ ""))).
Proof.
  eexists. split; [reflexivity|].
  repeat case_decide; rewrite ?bool_decide_eq_true_2, ?bool_decide_eq_false_2 by done;
    by simplify_map_eq.
Qed.

(** C6 (as amended).  [CreateWireGuardPeer] is the only operation whose
    request depends on the environment: every call of another operation
    builds the same request (or panics alike) in any two environments.
    Its input always has the boolean [nats], which is [true] exactly when
    [WG_NATS] is not empty and [false] otherwise; so two environments
    that differ on that give two different requests.  (Other conditional
    construction exists: see the optional parameters of C5.) *)
Theorem environment_read_by_CreateWireGuardPeer_only :
  (forall (env1 env2 : environ) (c : Client) (k : call),
      op_of k <> OpCreateWireGuardPeer ->
      request_of env1 c k = request_of env2 c k) /\
  (forall (c : Client) (env : environ) (o : Organization)
          (region name pubkey : string),
      exists m,
        input_of (CreateWireGuardPeer_request c env (Some o) region name pubkey)
          = Some m /\
        m !! "nats" = Some (VBool (bool_decide (Getenv env "WG_NATS" ≠ "")))) /\
  (forall (c : Client) (env1 env2 : environ) (o : Organization)
          (region name pubkey : string),
      Getenv env1 "WG_NATS" = "" -> Getenv env2 "WG_NATS" <> "" ->
      request_of env1 c (CallCreateWireGuardPeer (Some o) region name pubkey) <>
      request_of env2 c (CallCreateWireGuardPeer (Some o) region name pubkey)).
Proof.
  split_and!.
  - apply request_of_environment.
  - apply CreateWireGuardPeer_nats.
  - intros c env1 env2 o region name pubkey H1 H2 Heq.
    destruct (CreateWireGuardPeer_nats c env1 o region name pubkey) as (m1 & Hm1 & Hn1).
    destruct (CreateWireGuardPeer_nats c env2 o region name pubkey) as (m2 & Hm2 & Hn2).
    simpl in Heq. rewrite Heq in Hm1. rewrite Hm1 in Hm2.
    injection Hm2 as ->.
    rewrite bool_decide_eq_false_2 in Hn1 by (by intros ?).
    rewrite bool_decide_eq_true_2 in Hn2 by done.
    congruence.
Qed.

Lemma environment_read_by_CreateWireGuardPeer_only_witness :
  request_of ∅ (mkClient "token") (CallGetApp "alpha") =
  request_of {[ "WG_NATS" := "1" ]} (mkClient "token") (CallGetApp "alpha") /\
  request_of ∅ (mkClient "token")
    (CallCreateWireGuardPeer (Some zero_Organization) "" "peer" "key") <>
  request_of {[ "WG_NATS" := "1" ]} (mkClient "token")
    (CallCreateWireGuardPeer (Some zero_Organization) "" "peer" "key").
Proof.
  split.
  - apply (proj1 environment_read_by_CreateWireGuardPeer_only). discriminate.
  - apply (proj2 (proj2 environment_read_by_CreateWireGuardPeer_only)).
    + reflexivity.
    + vm_compute. discriminate.
Defined.

Lemma input_keys_differ (r1 r2 : go Request) (m1 m2 : gmap string value)
    (k : string) :
  input_of r1 = Some m1 -> input_of r2 = Some m2 ->
  m1 !! k = None -> is_Some (m2 !! k) ->
  input_keys r1 <> input_keys r2.
Proof.
  intros E1 E2 Hk1 Hk2. unfold input_keys. rewrite E1, E2. simpl.
  intros [= Hdom].
  apply elem_of_dom in Hk2. rewrite <- Hdom in Hk2.
  apply elem_of_dom in Hk2 as [v Hv]. congruence.
Qed.

(** C6 (as stated) fails: the environment flag is not the only
    condition in the construction of a request.  In one and the same
    environment (the empty one), [IssueSSHCertificate] for the
    organization [org-1] and the address [a@example.com] binds the names
    [organizationId] and [email] when [username] is nil, and a third
    name, [username], when it points to [root]. *)
Lemma IssueSSHCertificate_shape_depends_on_username :
  input_keys (request_of ∅ (mkClient "token")
    (CallIssueSSHCertificate
       (Some (mkOrganization "org-1" "Acme" "acme" None None None))
       "a@example.com" None None))
  <>
  input_keys (request_of ∅ (mkClient "token")
    (CallIssueSSHCertificate
       (Some (mkOrganization "org-1" "Acme" "acme" None None None))
       "a@example.com" (Some "root") None)).
Proof.
  eapply (input_keys_differ _ _ _ _ "username");
    [reflexivity | reflexivity | by vm_compute | vm_compute; eauto].
Qed.

(* ===================================================================== *)
(** * C1, C2, C9: projections of the envelope *)
(* ===================================================================== *)

Section Projections.
Variable graphql_Run : Request -> Query * option error.
Variable c : Client.

(** C1.  When the transport succeeds and the envelope has no
    [organization] or no [organization.dnsZone], [FindDNSZone] returns
    [ErrNotFound] (with a nil zone); when it has no [dnsZone] node,
    [GetDNSRecords] returns [ErrNotFound].  Neither returns a nil error. *)
Theorem absent_zone_is_not_found :
  (forall (organizationSlug domain : string) (data : Query),
      Run graphql_Run c (FindDNSZone_request c organizationSlug domain)
        = (data, None) ->
      Query_Organization data ≫= Organization_DNSZone = None ->
      FindDNSZone graphql_Run c organizationSlug domain
        = (None, Some ErrNotFound)) /\
  (forall (zoneID : string) (data : Query),
      Run graphql_Run c (GetDNSRecords_request c zoneID) = (data, None) ->
      Query_DNSZone data = None ->
      GetDNSRecords graphql_Run c zoneID = Return ([], Some ErrNotFound)).
Proof.
  split.
  - intros slug domain data Hrun Hnil. unfold FindDNSZone. rewrite Hrun.
    destruct (Query_Organization data) as [o|]; simpl in *; [|done].
    by rewrite Hnil.
  - intros zoneID data Hrun Hnil. unfold GetDNSRecords.
    by rewrite Hrun, Hnil.
Qed.

(** C2.  When the transport succeeds and the envelope leads to no list
    of nodes (the [nodes] pointer is nil, or the organization itself is),
    [GetWireGuardPeers] and [GetDNSZones] panic: they return neither an
    error nor an empty list. *)
Theorem nil_nodes_panic :
  (forall (slug : string) (data : Query),
      RunWithContext graphql_Run c (GetWireGuardPeers_request c slug)
        = (data, None) ->
      Query_Organization data ≫= Organization_WireGuardPeers_Nodes = None ->
      GetWireGuardPeers graphql_Run c slug = Panic) /\
  (forall (slug : string) (data : Query),
      Run graphql_Run c (GetDNSZones_request c slug) = (data, None) ->
      Query_Organization data ≫= Organization_DNSZones_Nodes = None ->
      GetDNSZones graphql_Run c slug = Panic).
Proof.
  split; intros slug data Hrun Hnil.
  - unfold GetWireGuardPeers. rewrite Hrun.
    destruct (Query_Organization data) as [o|]; simpl in *; [|done].
    by rewrite Hnil.
  - unfold GetDNSZones. rewrite Hrun.
    destruct (Query_Organization data) as [o|]; simpl in *; [|done].
    by rewrite Hnil.
Qed.

(** When the nodes are there, the accessors return them as they are. *)
Lemma GetDNSZones_nodes (slug : string) (data : Query) (o : Organization)
    (nodes : list (option DNSZone)) :
  Run graphql_Run c (GetDNSZones_request c slug) = (data, None) ->
  Query_Organization data = Some o ->
  Organization_DNSZones_Nodes o = Some nodes ->
  GetDNSZones graphql_Run c slug = Return (nodes, None).
Proof.
  intros Hrun Ho Hn. unfold GetDNSZones. rewrite Hrun, Ho. simpl. by rewrite Hn.
Qed.

Lemma GetWireGuardPeers_nodes (slug : string) (data : Query) (o : Organization)
    (nodes : list (option WireGuardPeer)) :
  RunWithContext graphql_Run c (GetWireGuardPeers_request c slug) = (data, None) ->
  Query_Organization data = Some o ->
  Organization_WireGuardPeers_Nodes o = Some nodes ->
  GetWireGuardPeers graphql_Run c slug = Return (nodes, None).
Proof.
  intros Hrun Ho Hn. unfold GetWireGuardPeers. rewrite Hrun, Ho. simpl.
  by rewrite Hn.
Qed.

(** A zone that is there is returned, with a nil error; an error of the
    transport is passed on. *)
Lemma FindDNSZone_found (organizationSlug domain : string) (data : Query)
    (o : Organization) (z : DNSZone) :
  Run graphql_Run c (FindDNSZone_request c organizationSlug domain) = (data, None) ->
  Query_Organization data = Some o ->
  Organization_DNSZone o = Some z ->
  FindDNSZone graphql_Run c organizationSlug domain = (Some z, None).
Proof.
  intros Hrun Ho Hz. unfold FindDNSZone. by rewrite Hrun, Ho, Hz.
Qed.

Lemma FindDNSZone_transport_error (organizationSlug domain : string)
    (data : Query) (e : error) :
  Run graphql_Run c (FindDNSZone_request c organizationSlug domain) = (data, Some e) ->
  FindDNSZone graphql_Run c organizationSlug domain = (None, Some e).
Proof.
  intros Hrun. unfold FindDNSZone. by rewrite Hrun.
Qed.

(** C9.  When the transport succeeds, [GetApps] returns the list under
    [apps.nodes] as it stands: the same length, the same app at every
    index, and a nil error. *)
Theorem GetApps_returns_nodes (data : Query) (nodes : list App) :
  Run graphql_Run c (GetApps_request c) = (data, None) ->
  Query_Apps_Nodes data = nodes ->
  GetApps graphql_Run c = (nodes, None) /\
  length (GetApps graphql_Run c).1 = length nodes /\
  (forall i : nat, (GetApps graphql_Run c).1 !! i = nodes !! i).
Proof.
  intros Hrun <-. unfold GetApps. rewrite Hrun. done.
Qed.

End Projections.

(** The scenario of the specification: a stub whose envelope has the
    organization but [dnsZone = null]; and one with no [dnsZone] node. *)
Lemma absent_zone_is_not_found_witness :
  FindDNSZone
    (stub_Run (mkQuery [] zero_App
       (Some (mkOrganization "org-1" "Acme" "acme" None None None)) None))
    (mkClient "token") "acme" "example.com" = (None, Some ErrNotFound) /\
  GetDNSRecords (stub_Run zero_Query) (mkClient "token") "zone-1"
    = Return ([], Some ErrNotFound).
Proof.
  split.
  - eapply (proj1 (absent_zone_is_not_found _ _)); reflexivity.
  - eapply (proj2 (absent_zone_is_not_found _ _)); reflexivity.
Defined.

Lemma nil_nodes_panic_witness :
  GetWireGuardPeers
    (stub_Run (mkQuery [] zero_App
       (Some (mkOrganization "org-1" "Acme" "acme" None None None)) None))
    (mkClient "token") "acme" = Panic /\
  GetDNSZones
    (stub_Run (mkQuery [] zero_App
       (Some (mkOrganization "org-1" "Acme" "acme" None None None)) None))
    (mkClient "token") "acme" = Panic.
Proof.
  split.
  - eapply (proj1 (nil_nodes_panic _ _)); reflexivity.
  - eapply (proj2 (nil_nodes_panic _ _)); reflexivity.
Defined.

(** The scenario of the specification: a stub that returns two nodes. *)
Lemma GetApps_returns_nodes_witness :
  GetApps
    (stub_Run (mkQuery
       [mkApp "app-1" "first" "" 0 "" zero_Organization;
        mkApp "app-2" "second" "" 0 "" zero_Organization]
       zero_App None None))
    (mkClient "token")
  = ([mkApp "app-1" "first" "" 0 "" zero_Organization;
      mkApp "app-2" "second" "" 0 "" zero_Organization], None).
Proof.
  refine (proj1 (GetApps_returns_nodes _ _
    (mkQuery
       [mkApp "app-1" "first" "" 0 "" zero_Organization;
        mkApp "app-2" "second" "" 0 "" zero_Organization]
       zero_App None None) _ _ _)); reflexivity.
Defined.

(* ===================================================================== *)
(** * C4, C10: [GetAccessToken] *)
(* ===================================================================== *)

Section SessionProperties.
Variable baseURL : string.
Variable http_Post : string -> string -> value -> Response + error.
Variable json_Decode : string -> token_map * option error.

(** Indexing through the three maps gives the empty string as soon as
    one of the keys is missing. *)
Lemma token_lookup_missing (m : token_map) :
  access_token_entry m = None ->
  ((m !!! "data") !!! "attributes") !!! "access_token" = "".
Proof.
  unfold access_token_entry. rewrite !lookup_total_alt.
  destruct (m !! "data") as [m1|]; simpl; [|done].
  destruct (m1 !! "attributes") as [m2|]; simpl; [|done].
  by intros ->.
Qed.

(** C4.  For a response of [http.Post]: a status of 500 or more gives
    the generic server error; a status from 400 to 499 gives the error of
    a wrong email and password, not one of the decoder; a status below
    400 gives the token read from the decoded body, and a nil error. *)
Theorem GetAccessToken_status (email password otp : string) (resp : Response) :
  http_Post (baseURL +:+ "/api/v1/sessions") "application/json"
            (GetAccessToken_postData email password otp) = inl resp ->
  ((500 <= StatusCode resp)%Z ->
     GetAccessToken baseURL http_Post json_Decode email password otp =
     ("", Some (errors_New "An unknown server error occured, please try again"))) /\
  ((400 <= StatusCode resp < 500)%Z ->
     GetAccessToken baseURL http_Post json_Decode email password otp =
     ("", Some (errors_New "Incorrect email and password combination"))) /\
  ((StatusCode resp < 400)%Z ->
     GetAccessToken baseURL http_Post json_Decode email password otp =
     ((((json_Decode (Body resp)).1 !!! "data") !!! "attributes") !!! "access_token",
      None)).
Proof.
  intros Hpost. unfold GetAccessToken. rewrite Hpost.
  split_and!; intros Hs.
  - destruct (Z.geb_spec (StatusCode resp) 500); [done|lia].
  - destruct (Z.geb_spec (StatusCode resp) 500); [lia|].
    destruct (Z.geb_spec (StatusCode resp) 400); [done|lia].
  - destruct (Z.geb_spec (StatusCode resp) 500); [lia|].
    destruct (Z.geb_spec (StatusCode resp) 400); [lia|].
    by destruct (json_Decode (Body resp)).
Qed.

(** The error of the decoder is dropped: for a response with a status
    below 400 whose body leaves the decoded map without
    [data.attributes.access_token], [GetAccessToken] returns the empty
    string and a nil error, whatever error the decoder returned. *)
Theorem GetAccessToken_discards_decode_error
    (email password otp : string) (resp : Response)
    (result : token_map) (decode_err : option error) :
  http_Post (baseURL +:+ "/api/v1/sessions") "application/json"
            (GetAccessToken_postData email password otp) = inl resp ->
  (StatusCode resp < 400)%Z ->
  json_Decode (Body resp) = (result, decode_err) ->
  access_token_entry result = None ->
  GetAccessToken baseURL http_Post json_Decode email password otp = ("", None).
Proof.
  intros Hpost Hs Hdec Hmiss. unfold GetAccessToken. rewrite Hpost.
  destruct (Z.geb_spec (StatusCode resp) 500); [lia|].
  destruct (Z.geb_spec (StatusCode resp) 400); [lia|].
  rewrite Hdec. by rewrite token_lookup_missing.
Qed.

End SessionProperties.

(** The scenario of the specification: a stub that answers 401, with a
    body that is no JSON. *)
Lemma GetAccessToken_status_witness :
  GetAccessToken "https://api.example" (stub_Post (mkResponse 401 "unauthorized"))
    stub_Decode "a@example.com" "secret" ""
  = ("", Some (errors_New "Incorrect email and password combination")).
Proof.
  refine (proj1 (proj2 (GetAccessToken_status "https://api.example"
            (stub_Post (mkResponse 401 "unauthorized")) stub_Decode
            "a@example.com" "secret" "" (mkResponse 401 "unauthorized") _)) _).
  - reflexivity.
  - simpl. lia.
Defined.

(** A stub that answers 200 with a body that is no JSON: the decoder
    returns a syntax error, and the caller sees none. *)
Lemma GetAccessToken_discards_decode_error_witness :
  GetAccessToken "https://api.example" (stub_Post (mkResponse 200 "not json"))
    stub_Decode "a@example.com" "secret" ""
  = ("", None).
Proof.
  refine (GetAccessToken_discards_decode_error "https://api.example"
            (stub_Post (mkResponse 200 "not json")) stub_Decode
            "a@example.com" "secret" "" (mkResponse 200 "not json")
            ∅ (Some (errors_New "invalid character 'o' in literal null (expecting 'u')"))
            _ _ _ _).
  - reflexivity.
  - simpl. lia.
  - reflexivity.
  - reflexivity.
Defined.

Example GetAccessToken_decodes_token :
  GetAccessToken "https://api.example" (stub_Post (mkResponse 200 "ok:tok-123"))
    stub_Decode "a@example.com" "secret" ""
  = ("tok-123", None).
Proof. reflexivity. Qed.

(* ===================================================================== *)
(** * Further properties of the normalisation *)
(* ===================================================================== *)

Section NormalForm.
Variable ws : rune -> bool.
Hypothesis ws_space : ws space = true.

Lemma replace_scan_single_spaced (s : gostring) (in_match : bool) :
  single_spaced ws in_match (replace_scan ws [space] in_match s) = true.
Proof.
  revert in_match. induction s as [|r s IH]; intros in_match; simpl; [done|].
  destruct (ws r) eqn:Hr.
  - destruct in_match; simpl; [apply IH|].
    rewrite ws_space, IH. simpl. rewrite ?bool_decide_eq_true_2 by done. done.
  - simpl. rewrite Hr. apply IH.
Qed.

Lemma single_spaced_replace_scan (s : gostring) (in_match : bool) :
  single_spaced ws in_match s = true -> replace_scan ws [space] in_match s = s.
Proof.
  revert in_match. induction s as [|r s IH]; intros in_match; simpl; [done|].
  destruct (ws r) eqn:Hr.
  - destruct in_match; simpl; [done|].
    intros H. apply andb_true_iff in H as [H1 H2].
    apply bool_decide_eq_true in H1 as ->. by rewrite IH.
  - intros H. by rewrite IH.
Qed.

Lemma replace_scan_length (s : gostring) (in_match : bool) :
  length (replace_scan ws [space] in_match s) <= length s.
Proof.
  revert in_match. induction s as [|r s IH]; intros in_match; simpl; [done|].
  destruct (ws r); [destruct in_match|]; simpl;
    [specialize (IH true) | specialize (IH true) | specialize (IH false)]; lia.
Qed.

End NormalForm.

Lemma drop_while_length {A} (p : A -> bool) (l : list A) :
  length (drop_while p l) <= length l.
Proof.
  induction l as [|x l IH]; simpl; [done|]. destruct (p x); simpl; lia.
Qed.

Lemma trim_length (f : rune -> bool) (s : gostring) : length (trim f s) <= length s.
Proof.
  unfold trim. rewrite length_reverse.
  etrans; [apply drop_while_length|]. rewrite length_reverse.
  apply drop_while_length.
Qed.

Lemma perl_space_space : perl_space space = true.
Proof. reflexivity. Qed.

Lemma compactQueryString_unfold (q0 : gostring) :
  compactQueryString q0 =
  replace_scan perl_space [space] false (trim unicode_IsSpace q0).
Proof.
  unfold compactQueryString, compactPattern, TrimSpace.
  by rewrite TrimFunc_trim.
Qed.

(** The normal forms of the normalisation.  What [compactQueryString]
    returns has no Unicode white space at its ends, and in it every
    character of the class of the regular expression is a single space
    with no such character next to it; and the strings it leaves
    unchanged are exactly the strings of that form. *)
Theorem compactQueryString_normal_form (q0 : gostring) :
  (trimmed unicode_IsSpace (compactQueryString q0) /\
   single_spaced perl_space false (compactQueryString q0) = true) /\
  (compactQueryString q0 = q0 <->
   trimmed unicode_IsSpace q0 /\ single_spaced perl_space false q0 = true).
Proof.
  assert (Hnf : trimmed unicode_IsSpace (compactQueryString q0) /\
                single_spaced perl_space false (compactQueryString q0) = true).
  { split; [apply compactQueryString_trimmed|].
    rewrite compactQueryString_unfold.
    apply replace_scan_single_spaced, perl_space_space. }
  split; [exact Hnf|]. split.
  - intros Heq. by rewrite Heq in Hnf.
  - intros [Ht Hs]. rewrite compactQueryString_unfold, trim_id by done.
    by apply single_spaced_replace_scan.
Qed.

Lemma compactQueryString_normal_form_witness :
  trimmed unicode_IsSpace (of_string "query { a }") /\
  single_spaced perl_space false (of_string "query { a }") = true /\
  compactQueryString (of_string "query { a }") = of_string "query { a }".
Proof.
  assert (H : trimmed unicode_IsSpace (of_string "query { a }") /\
              single_spaced perl_space false (of_string "query { a }") = true).
  { split; [split; intros r [= <-]; reflexivity | reflexivity]. }
  split_and!; [apply H | apply H |].
  apply (proj2 (proj2 (compactQueryString_normal_form (of_string "query { a }")))).
  exact H.
Defined.

(** The normalisation never makes a document longer. *)
Theorem compactQueryString_length (q0 : gostring) :
  length (compactQueryString q0) <= length q0.
Proof.
  rewrite compactQueryString_unfold.
  etrans; [apply replace_scan_length | apply trim_length].
Qed.

Section Content.
Variable f : rune -> bool.

Lemma filter_drop_while (l : gostring) :
  filter (fun r => f r = false) (drop_while f l) = filter (fun r => f r = false) l.
Proof.
  induction l as [|x l IH]; [done|]. cbn [drop_while].
  destruct (f x) eqn:Hx; [|done].
  rewrite (filter_cons_False _ x l) by congruence. exact IH.
Qed.

Lemma filter_trim (s : gostring) :
  filter (fun r => f r = false) (trim f s) = filter (fun r => f r = false) s.
Proof.
  unfold trim.
  rewrite (filter_reverse (fun r => f r = false)), filter_drop_while.
  rewrite (filter_reverse (fun r => f r = false)), reverse_involutive.
  apply filter_drop_while.
Qed.

Lemma filter_replace_scan (ws : rune -> bool) (s : gostring) (in_match : bool) :
  (forall r, ws r = true -> f r = true) -> ws space = true ->
  filter (fun r => f r = false) (replace_scan ws [space] in_match s)
  = filter (fun r => f r = false) s.
Proof.
  intros Hsub Hsp. revert in_match.
  induction s as [|r s IH]; intros in_match; [done|]. cbn [replace_scan].
  destruct (ws r) eqn:Hr.
  - rewrite (filter_cons_False _ r s) by (rewrite (Hsub r Hr); congruence).
    destruct in_match; [apply IH|]. cbn [app].
    rewrite (filter_cons_False _ space) by (rewrite (Hsub _ Hsp); congruence).
    apply IH.
  - rewrite !(filter_cons (fun r => f r = false)). by rewrite IH.
Qed.

End Content.

(** The normalisation changes white space only: the characters of a
    string that are no Unicode white space are the same, in the same
    order, before and after. *)
Theorem compactQueryString_keeps_content (q0 : gostring) :
  filter (fun r => unicode_IsSpace r = false) (compactQueryString q0)
  = filter (fun r => unicode_IsSpace r = false) q0.
Proof.
  rewrite compactQueryString_unfold.
  rewrite filter_replace_scan by (apply perl_space_IsSpace || reflexivity).
  apply filter_trim.
Qed.

(** In every document of the package the two classes of white space
    agree on every character. *)
Lemma document_classes_agree (o : operation) :
  forallb (fun r => Bool.eqb (unicode_IsSpace r) (perl_space r)) (document o) = true.
Proof. destruct o; vm_compute; reflexivity. Qed.

(** On the documents of the package, the literals the operations pass
    to [NewRequest], the normalisation is the one of the specification
    with a single class of white space: trimmed at both ends, every run
    of white space a single space. *)
Theorem document_normalized_as_specified (o : operation) :
  compactQueryString (document o) = normalize perl_space (document o).
Proof.
  apply compactQueryString_normalize_agree. intros r Hr.
  pose proof (document_classes_agree o) as H.
  rewrite forallb_forall in H. specialize (H r).
  apply Bool.eqb_prop, H. by apply list_elem_of_In.
Qed.

(* ===================================================================== *)
(** * Further properties of the construction of requests *)
(* ===================================================================== *)

Lemma vars_Var (req : Request) (key : string) (v : value) :
  vars (Var req key v) = <[key := v]> (vars req).
Proof. reflexivity. Qed.

Lemma vars_NewRequest (c : Client) (d : gostring) : vars (NewRequest c d) = ∅.
Proof. reflexivity. Qed.

Ltac vars_dom :=
  rewrite ?vars_Var, ?vars_NewRequest, ?dom_insert_L, ?dom_empty_L; set_solver.

Lemma request_of_variable_names (env : environ) (c : Client) (k : call) (r : Request) :
  request_of env c k = Return r -> dom (vars r) = variable_names (op_of k).
Proof.
  destruct k; simpl; intros H;
    try (injection H as <-;
         unfold SetSecrets_request, UnsetSecrets_request, CreateApp_request;
         vars_dom);
    destruct org as [o|]; try discriminate H; simpl in H.
  - injection H as <-. vars_dom.
  - injection H as <-. vars_dom.
  - injection H as <-. vars_dom.
  - injection H as <-. vars_dom.
  - injection H as <-. vars_dom.
  - destruct name as [n|]; [|destruct token as [t|]]; try discriminate H;
      simpl in H; injection H as <-; vars_dom.
Qed.

(** The variables of a request are those of its operation: whatever the
    arguments, the client and the environment, a request that is built
    binds exactly the names [variable_names] lists for its operation, so
    two calls of one operation bind the same names. *)
Theorem variable_names_fixed_per_operation
    (env1 env2 : environ) (c1 c2 : Client) (k1 k2 : call) (r1 r2 : Request) :
  op_of k1 = op_of k2 ->
  request_of env1 c1 k1 = Return r1 ->
  request_of env2 c2 k2 = Return r2 ->
  dom (vars r1) = variable_names (op_of k1) /\ dom (vars r1) = dom (vars r2).
Proof.
  intros Hop H1 H2.
  apply request_of_variable_names in H1, H2. by rewrite H1, H2, Hop.
Qed.

Lemma variable_names_fixed_per_operation_witness :
  dom (vars (GetAppReleases_request (mkClient "t1") "alpha" 5)) =
    {[ "appName"; "limit" ]} /\
  dom (vars (GetAppReleases_request (mkClient "t1") "alpha" 5)) =
  dom (vars (GetAppReleases_request (mkClient "t2") "beta" 10)).
Proof.
  apply (variable_names_fixed_per_operation ∅ ∅ (mkClient "t1") (mkClient "t2")
           (CallGetAppReleases "alpha" 5) (CallGetAppReleases "beta" 10));
    reflexivity.
Defined.

(** The construction of a request panics exactly for the calls that pass
    a nil organization, and for [DeleteDelegatedWireGuardToken] with
    neither a name nor a token; every other call hands a request to the
    transport. *)
Theorem request_of_panics_on_nil_argument (env : environ) (c : Client) (k : call) :
  request_of env c k = Panic <-> nil_argument k = true.
Proof.
  destruct k; simpl; try (split; discriminate);
    destruct org as [o|]; simpl; try (split; [discriminate|discriminate]);
    try (split; reflexivity).
  destruct name; [|destruct token]; simpl; split; (discriminate || reflexivity).
Qed.

(** [DeleteDelegatedWireGuardToken] identifies the token by its name
    when a name is given, and the [token] argument is then not read: the
    input has [name] and no [token], and the request is the same
    whatever [token] is.  Only without a name is [token] bound, and then
    the input has no [name]. *)
Theorem DeleteDelegatedWireGuardToken_name_first
    (c : Client) (o : Organization) (n t : string) (token token' : option string) :
  (exists m,
     input_of (DeleteDelegatedWireGuardToken_request c (Some o) (Some n) token)
       = Some m /\
     m !! "name" = Some (VString n) /\ m !! "token" = None /\
     m !! "organizationId" = Some (VString (Organization_ID o))) /\
  DeleteDelegatedWireGuardToken_request c (Some o) (Some n) token =
  DeleteDelegatedWireGuardToken_request c (Some o) (Some n) token' /\
  (exists m,
     input_of (DeleteDelegatedWireGuardToken_request c (Some o) None (Some t))
       = Some m /\
     m !! "token" = Some (VString t) /\ m !! "name" = None /\
     m !! "organizationId" = Some (VString (Organization_ID o))).
Proof.
  split_and!.
  - eexists. split; [reflexivity|]. by simplify_map_eq.
  - reflexivity.
  - eexists. split; [reflexivity|]. by simplify_map_eq.
Qed.

(** The inputs of [IssueSSHCertificate] and [CreateWireGuardPeer] have
    the required keys, the optional keys that were given, and no other
    key. *)
Theorem optional_parameters_exact_keys
    (c : Client) (env : environ) (o : Organization) (email : string)
    (username : option string) (valid_hours : option Z)
    (region name pubkey : string) :
  input_keys (IssueSSHCertificate_request c (Some o) email username valid_hours)
  = Some ({[ "organizationId"; "email" ]}
          ∪ (if username is Some _ then {[ "username" ]} else ∅)
          ∪ (if valid_hours is Some _ then {[ "validHours" ]} else ∅)) /\
  input_keys (CreateWireGuardPeer_request c env (Some o) region name pubkey)
  = Some ({[ "organizationId"; "name"; "pubkey"; "nats" ]}
          ∪ (if decide (region = "") then ∅ else {[ "region" ]})).
Proof.
  unfold input_keys. split.
  - destruct username, valid_hours; simpl; f_equal;
      rewrite ?dom_insert_L, ?dom_singleton_L, ?dom_empty_L; set_solver.
  - simpl. rewrite lookup_insert_eq. simpl. f_equal.
    repeat case_decide; try done;
      rewrite ?dom_insert_L, ?dom_singleton_L, ?dom_empty_L; set_solver.
Qed.

Lemma SetSecrets_fold (appName : string) (secrets : list (string * string))
    (acc : option (list SetSecretsInputSecret)) :
  foldl (fun input kv =>
           {| SetSecretsInput_AppID := SetSecretsInput_AppID input;
              SetSecretsInput_Secrets :=
                slice_append (SetSecretsInput_Secrets input)
                  {| SetSecretsInputSecret_Key := kv.1;
                     SetSecretsInputSecret_Value := kv.2 |} |})
        {| SetSecretsInput_AppID := appName; SetSecretsInput_Secrets := acc |}
        secrets
  = {| SetSecretsInput_AppID := appName;
       SetSecretsInput_Secrets :=
         match secrets with
         | [] => acc
         | _ => Some (default [] acc
                      ++ ((fun kv => mkSetSecretsInputSecret kv.1 kv.2) <$> secrets))
         end |}.
Proof.
  revert acc. induction secrets as [|kv secrets IH]; intros acc; [done|].
  cbn [foldl]. cbn [SetSecretsInput_AppID SetSecretsInput_Secrets].
  rewrite IH. f_equal. unfold slice_append.
  destruct secrets as [|kv' secrets]; [done|].
  cbn [default from_option id]. by rewrite <- app_assoc.
Qed.

(** [SetSecrets] binds the application and, for a map that is not empty,
    one object [{key, value}] per entry of the map, in the order the loop
    visits the entries, nothing lost and nothing added.  For the empty
    map the slice of secrets is never appended to: it stays nil and is
    sent as [null], not as an empty list. *)
Theorem SetSecrets_one_secret_per_entry
    (c : Client) (appName : string) (secrets : list (string * string)) :
  input_of (Return (SetSecrets_request c appName secrets))
  = Some {[ "appId" := VString appName;
            "secrets" :=
              match secrets with
              | [] => VNull
              | _ => VList ((fun kv => SetSecretsInputSecret_json
                                         (mkSetSecretsInputSecret kv.1 kv.2))
                            <$> secrets)
              end ]}.
Proof.
  unfold SetSecrets_request. rewrite SetSecrets_fold.
  cbn [input_of vars Var]. rewrite lookup_insert_eq.
  unfold SetSecretsInput_json.
  cbn [SetSecretsInput_AppID SetSecretsInput_Secrets].
  destruct secrets as [|kv secrets]; [reflexivity|].
  cbn [slice_value default from_option id app].
  do 3 f_equal. by rewrite <- list_fmap_compose.
Qed.

(* ===================================================================== *)
(** * Further properties of execution and projection *)
(* ===================================================================== *)

Section MoreProjections.
Variable graphql_Run : Request -> Query * option error.
Variable c : Client.

(** [FindDNSZone] returns a zone exactly when it returns no error: never
    both, never neither. *)
Theorem FindDNSZone_zone_or_error (organizationSlug domain : string) :
  is_Some (FindDNSZone graphql_Run c organizationSlug domain).1 <->
  (FindDNSZone graphql_Run c organizationSlug domain).2 = None.
Proof.
  unfold FindDNSZone.
  destruct (Run graphql_Run c _) as [data [e|]]; simpl.
  - split; [intros [? ?]; done | done].
  - destruct (Query_Organization data) as [o|]; simpl;
      [destruct (Organization_DNSZone o); simpl|];
      split; try done; intros [? ?]; done.
Qed.



End MoreProjections.


(** [NewClient] refuses the empty access token, and a client made from
    any other token shows it to the transport with every request: two
    transports that answer alike the requests whose [Authorization]
    header is [Bearer] and that token give the same result for every
    request passed to [Run] or [RunWithContext], the only ways to the
    transport, and so for each of the operations whose execution is
    modelled. *)
Theorem NewClient_requests_authenticated (tok : string)
    (run1 run2 : Request -> Query * option error) :
  tok <> "" ->
  (forall req, Header req !! "Authorization" = Some ("Bearer " +:+ tok) ->
               run1 req = run2 req) ->
  NewClient "" = (None, Some (errors_New "No api access token available. Please login")) /\
  exists c, NewClient tok = (Some c, None) /\
    (forall req, RunWithContext run1 c req = RunWithContext run2 c req) /\
    (forall req, Run run1 c req = Run run2 c req) /\
    GetApps run1 c = GetApps run2 c /\
    (forall name orgId, CreateApp run1 c name orgId = CreateApp run2 c name orgId) /\
    (forall slug domain, FindDNSZone run1 c slug domain = FindDNSZone run2 c slug domain) /\
    (forall slug, GetDNSZones run1 c slug = GetDNSZones run2 c slug) /\
    (forall zoneID, GetDNSRecords run1 c zoneID = GetDNSRecords run2 c zoneID) /\
    (forall slug, GetWireGuardPeers run1 c slug = GetWireGuardPeers run2 c slug) /\
    (forall Query_Platform,
       PlatformRegions run1 Query_Platform c = PlatformRegions run2 Query_Platform c) /\
    (forall Query_Platform,
       PlatformRegionsAll run1 Query_Platform c
       = PlatformRegionsAll run2 Query_Platform c).
Proof.
  intros Htok Hrun. split; [reflexivity|].
  exists (mkClient tok). split.
  { unfold NewClient. by rewrite decide_False. }
  assert (H : forall req, RunWithContext run1 (mkClient tok) req
                          = RunWithContext run2 (mkClient tok) req).
  { intros req. unfold RunWithContext. apply Hrun. simpl. apply lookup_insert_eq. }
  split_and!; intros;
    unfold GetApps, CreateApp, FindDNSZone, GetDNSZones, GetDNSRecords,
      GetWireGuardPeers, PlatformRegions, PlatformRegionsAll, Run;
    by rewrite ?H.
Qed.

(** Two transports that disagree on every request without the header
    (one answers 401, the other 403) and agree on the requests with it. *)
Lemma NewClient_requests_authenticated_witness :
  GetApps (stub_Run_authenticated "token" zero_Query (errors_New "401"))
          (mkClient "token")
  = GetApps (stub_Run_authenticated "token" zero_Query (errors_New "403"))
            (mkClient "token") /\
  stub_Run_authenticated "token" zero_Query (errors_New "401")
    (GetApps_request (mkClient "token"))
  <> stub_Run_authenticated "token" zero_Query (errors_New "403")
       (GetApps_request (mkClient "token")).
Proof.
  split; [|vm_compute; discriminate].
  destruct (NewClient_requests_authenticated "token"
              (stub_Run_authenticated "token" zero_Query (errors_New "401"))
              (stub_Run_authenticated "token" zero_Query (errors_New "403")))
    as (_ & c & Hc & _ & _ & Happs & _).
  - discriminate.
  - intros req Hreq. unfold stub_Run_authenticated.
    by rewrite !decide_True.
  - injection Hc as <-. exact Happs.
Defined.

(* ===================================================================== *)
(** * [PlatformRegions]: the region of the request *)
(* ===================================================================== *)

Lemma PlatformRegions_loop_Some (regions : list Region) (code : string) (r : Region) :
  PlatformRegions_loop regions code = Some r <->
  exists i : nat,
    regions !! i = Some r /\ Region_Code r = code /\
    forall (j : nat) (r' : Region),
      j < i -> regions !! j = Some r' -> Region_Code r' <> code.
Proof.
  induction regions as [|x regions IH]; simpl.
  - split; [done|]. intros (i & Hi & _). done.
  - case_decide as Hx.
    + split.
      * intros [= <-]. exists 0. split; [done|]. split; [done|].
        intros j r' Hj. lia.
      * intros (i & Hi & Hr & Hmin). destruct i as [|i].
        -- simpl in Hi. congruence.
        -- exfalso. apply (Hmin 0 x); [lia|done|done].
    + rewrite IH. split.
      * intros (i & Hi & Hr & Hmin). exists (S i).
        split; [done|]. split; [done|].
        intros [|j] r' Hj Hr'; simpl in Hr'.
        -- congruence.
        -- apply (Hmin j r'); [lia|done].
      * intros (i & Hi & Hr & Hmin). destruct i as [|i]; simpl in Hi.
        -- congruence.
        -- exists i. split; [done|]. split; [done|].
           intros j r' Hj Hr'. apply (Hmin (S j) r'); [lia|done].
Qed.

Section PlatformProperties.
Variable graphql_Run : Request -> Query * option error.
Variable Query_Platform : Query -> Platform.
Variable c : Client.

(** When the transport succeeds, [PlatformRegions] returns the regions
    as they came and a nil error; the region of the request it returns
    is the first region of that list whose code is [requestRegion], and
    nil when [requestRegion] is empty or no region has that code. *)
Theorem PlatformRegions_first_match (data : Query) :
  Run graphql_Run c (PlatformRegions_request c) = (data, None) ->
  exists requestRegion : option Region,
    PlatformRegions graphql_Run Query_Platform c
      = (Platform_Regions (Query_Platform data), requestRegion, None) /\
    forall r : Region,
      requestRegion = Some r <->
      Platform_RequestRegion (Query_Platform data) <> "" /\
      exists i : nat,
        Platform_Regions (Query_Platform data) !! i = Some r /\
        Region_Code r = Platform_RequestRegion (Query_Platform data) /\
        forall (j : nat) (r' : Region),
          j < i -> Platform_Regions (Query_Platform data) !! j = Some r' ->
          Region_Code r' <> Platform_RequestRegion (Query_Platform data).
Proof.
  intros Hrun. unfold PlatformRegions. rewrite Hrun.
  eexists. split; [reflexivity|]. intros r.
  case_decide as Hne.
  - rewrite PlatformRegions_loop_Some. split; [intros H; by split | intros [_ H]; exact H].
  - split; [done|]. intros [? _]. done.
Qed.

End PlatformProperties.

Lemma PlatformRegions_first_match_witness :
  exists requestRegion : option Region,
    PlatformRegions (stub_Run zero_Query)
      (fun _ => mkPlatform "ord"
         [mkRegion "ams" "Amsterdam" true; mkRegion "ord" "Chicago" false;
          mkRegion "ord" "Chicago (second)" true])
      (mkClient "token")
    = ([mkRegion "ams" "Amsterdam" true; mkRegion "ord" "Chicago" false;
        mkRegion "ord" "Chicago (second)" true], requestRegion, None) /\
    forall r : Region,
      requestRegion = Some r <->
      "ord" <> "" /\
      exists i : nat,
        [mkRegion "ams" "Amsterdam" true; mkRegion "ord" "Chicago" false;
         mkRegion "ord" "Chicago (second)" true] !! i = Some r /\
        Region_Code r = "ord" /\
        forall (j : nat) (r' : Region),
          j < i ->
          [mkRegion "ams" "Amsterdam" true; mkRegion "ord" "Chicago" false;
           mkRegion "ord" "Chicago (second)" true] !! j = Some r' ->
          Region_Code r' <> "ord".
Proof.
  apply (PlatformRegions_first_match (stub_Run zero_Query)
           (fun _ => mkPlatform "ord"
              [mkRegion "ams" "Amsterdam" true; mkRegion "ord" "Chicago" false;
               mkRegion "ord" "Chicago (second)" true])
           (mkClient "token") zero_Query).
  reflexivity.
Defined.

Example PlatformRegions_example :
  PlatformRegions (stub_Run zero_Query)
    (fun _ => mkPlatform "ord"
       [mkRegion "ams" "Amsterdam" true; mkRegion "ord" "Chicago" false;
        mkRegion "ord" "Chicago (second)" true])
    (mkClient "token")
  = ([mkRegion "ams" "Amsterdam" true; mkRegion "ord" "Chicago" false;
      mkRegion "ord" "Chicago (second)" true],
     Some (mkRegion "ord" "Chicago" false), None).
Proof. reflexivity. Qed.

(* ===================================================================== *)
(** * The REST calls *)
(* ===================================================================== *)

Lemma token_lookup_present (m : token_map) (tok : string) :
  ((m !!! "data") !!! "attributes") !!! "access_token" = tok -> tok <> "" ->
  access_token_entry m = Some tok.
Proof.
  unfold access_token_entry. rewrite !lookup_total_alt. intros H Hne.
  destruct (m !! "data") as [m1|]; simpl in *;
    [|exfalso; apply Hne; rewrite <- H; reflexivity].
  destruct (m1 !! "attributes") as [m2|]; simpl in *;
    [|exfalso; apply Hne; rewrite <- H; reflexivity].
  destruct (m2 !! "access_token") as [t|]; simpl in *; congruence.
Qed.

Section SessionInvariant.
Variable baseURL : string.
Variable http_Post : string -> string -> value -> Response + error.
Variable json_Decode : string -> token_map * option error.

(** [GetAccessToken] never returns a token together with an error, and
    a token that is not empty has one origin only: a response with a
    status below 400 whose decoded body has it under
    [data.attributes.access_token]. *)
Theorem GetAccessToken_token_origin (email password otp tok : string)
    (err : option error) :
  GetAccessToken baseURL http_Post json_Decode email password otp = (tok, err) ->
  tok <> "" ->
  err = None /\
  exists resp,
    http_Post (baseURL +:+ "/api/v1/sessions") "application/json"
              (GetAccessToken_postData email password otp) = inl resp /\
    (StatusCode resp < 400)%Z /\
    access_token_entry (json_Decode (Body resp)).1 = Some tok.
Proof.
  unfold GetAccessToken.
  destruct (http_Post _ _ _) as [resp|e]; [|by intros [= <- <-]].
  destruct (Z.geb_spec (StatusCode resp) 500); [by intros [= <- <-]|].
  destruct (Z.geb_spec (StatusCode resp) 400); [by intros [= <- <-]|].
  destruct (json_Decode (Body resp)) as [result derr] eqn:Hdec.
  intros [= Htok <-] Hne. split; [done|].
  exists resp. split_and!; [done|lia|]. rewrite Hdec. simpl.
  by apply token_lookup_present.
Qed.

End SessionInvariant.

Lemma GetAccessToken_token_origin_witness :
  exists resp,
    stub_Post (mkResponse 200 "ok:tok-123") ("https://api.example" +:+ "/api/v1/sessions")
      "application/json" (GetAccessToken_postData "a@example.com" "secret" "")
      = inl resp /\
    (StatusCode resp < 400)%Z /\
    access_token_entry (stub_Decode (Body resp)).1 = Some "tok-123".
Proof.
  apply (GetAccessToken_token_origin "https://api.example"
           (stub_Post (mkResponse 200 "ok:tok-123")) stub_Decode
           "a@example.com" "secret" "" "tok-123" None).
  - reflexivity.
  - discriminate.
Defined.

Section CLISessionProperties.
Variable baseURL : string.
Variable http_Post : string -> string -> value -> Response + error.
Variable http_Get : string -> Response + error.
Variable json_Decode : string -> CLISessionAuth -> CLISessionAuth * option error.

(** [StartCLISessionWebAuth] accepts the status 201 alone: for any other
    status, 200 included, it returns [ErrUnknown] and the zero session;
    for 201 it returns what the decoder left, and a nil error even when
    the decoder failed. *)
Theorem StartCLISessionWebAuth_status (machineName : string) (resp : Response) :
  http_Post (baseURL +:+ "/api/v1/cli_sessions") "application/json"
            (VMap {[ "name" := VString machineName ]}) = inl resp ->
  (StatusCode resp <> 201%Z ->
   StartCLISessionWebAuth baseURL http_Post json_Decode machineName
   = (zero_CLISessionAuth, Some ErrUnknown)) /\
  (StatusCode resp = 201%Z ->
   StartCLISessionWebAuth baseURL http_Post json_Decode machineName
   = ((json_Decode (Body resp) zero_CLISessionAuth).1, None)).
Proof.
  intros Hpost. unfold StartCLISessionWebAuth. rewrite Hpost.
  split; intros Hs; case_decide; try done.
  by destruct (json_Decode _ _).
Qed.

(** [GetAccessTokenForCLISession]: the status 404 gives [ErrNotFound],
    any other status than 200 gives [ErrUnknown], both with the zero
    session; the status 200 gives what the decoder left and a nil error. *)
Theorem GetAccessTokenForCLISession_status (id : string) (resp : Response) :
  http_Get (baseURL +:+ "/api/v1/cli_sessions/" +:+ id) = inl resp ->
  (StatusCode resp = 404%Z ->
   GetAccessTokenForCLISession baseURL http_Get json_Decode id
   = (zero_CLISessionAuth, Some ErrNotFound)) /\
  (StatusCode resp <> 404%Z -> StatusCode resp <> 200%Z ->
   GetAccessTokenForCLISession baseURL http_Get json_Decode id
   = (zero_CLISessionAuth, Some ErrUnknown)) /\
  (StatusCode resp = 200%Z ->
   GetAccessTokenForCLISession baseURL http_Get json_Decode id
   = ((json_Decode (Body resp) zero_CLISessionAuth).1, None)).
Proof.
  intros Hget. unfold GetAccessTokenForCLISession. rewrite Hget.
  split_and!; intros; repeat case_decide; try done; try lia.
  by destruct (json_Decode _ _).
Qed.

End CLISessionProperties.

Lemma StartCLISessionWebAuth_status_witness :
  StartCLISessionWebAuth "https://api.example"
    (stub_Post (mkResponse 200 "{}")) (fun _ r => (r, None)) "laptop"
  = (zero_CLISessionAuth, Some ErrUnknown).
Proof.
  refine (proj1 (StartCLISessionWebAuth_status "https://api.example"
            (stub_Post (mkResponse 200 "{}")) (fun _ r => (r, None)) "laptop"
            (mkResponse 200 "{}") _) _).
  - reflexivity.
  - discriminate.
Defined.

Lemma GetAccessTokenForCLISession_status_witness :
  GetAccessTokenForCLISession "https://api.example"
    (fun _ => inl (mkResponse 404 "")) (fun _ r => (r, None)) "session-1"
  = (zero_CLISessionAuth, Some ErrNotFound).
Proof.
  refine (proj1 (GetAccessTokenForCLISession_status "https://api.example"
            (fun _ => inl (mkResponse 404 "")) (fun _ r => (r, None)) "session-1"
            (mkResponse 404 "") _) _).
  - reflexivity.
  - reflexivity.
Defined.

(** The query parameters of [GetAppLogs]: [next_token] is always sent,
    empty or not; [instance] and [region] are sent exactly when they are
    not empty; each with the one value given, and nothing else is sent. *)
Theorem GetAppLogs_values_lookup (nextToken region instanceId key : string) :
  GetAppLogs_values nextToken region instanceId !! key =
  if decide (key = "next_token") then Some [nextToken]
  else if decide (key = "instance") then
    (if decide (instanceId = "") then None else Some [instanceId])
  else if decide (key = "region") then
    (if decide (region = "") then None else Some [region])
  else None.
Proof.
  unfold GetAppLogs_values, Values_Set.
  repeat case_decide; subst; try done; by simplify_map_eq.
Qed.

Lemma GetAppLogs_fold (data : list getLogsResponse_Data) (acc : list LogEntry) :
  foldl (fun entries d => entries ++ [getLogsResponse_Attributes d]) acc data
  = acc ++ (getLogsResponse_Attributes <$> data).
Proof.
  revert acc. induction data as [|d data IH]; intros acc; simpl.
  - by rewrite app_nil_r.
  - rewrite IH. by rewrite <- app_assoc.
Qed.

Section LogsProperties.
Variable baseURL : string.
Variable Values_Encode : url_Values -> string.
Variable http_NewRequest : string -> string -> option HTTPRequest.
Variable http_Do : HTTPRequest -> Response + error.
Variable ErrorFromResp : Response -> error.
Variable json_Decode : string -> getLogsResponse * option error.
Variable c : Client.

(** The outcomes of [GetAppLogs].  It panics when [http.NewRequest]
    gives no request (its error is not looked at).  Otherwise it sends
    the request with the bearer token: an error of the transport, or a
    status other than 200, gives no entry, an empty token and the error;
    the status 200 gives the attributes of the decoded items, one entry
    per item in their order, the next token of the response, and a nil
    error even when the decoder failed. *)
Theorem GetAppLogs_outcome (appName nextToken region instanceId : string) :
  (http_NewRequest "GET"
     (GetAppLogs_url baseURL Values_Encode appName nextToken region instanceId)
   = None ->
   GetAppLogs baseURL Values_Encode http_NewRequest http_Do ErrorFromResp
     json_Decode c appName nextToken region instanceId = Panic) /\
  (forall req,
     http_NewRequest "GET"
       (GetAppLogs_url baseURL Values_Encode appName nextToken region instanceId)
     = Some req ->
     (forall err,
        http_Do (HTTPRequest_Header_Set req "Authorization"
                   ("Bearer " +:+ accessToken c)) = inr err ->
        GetAppLogs baseURL Values_Encode http_NewRequest http_Do ErrorFromResp
          json_Decode c appName nextToken region instanceId
        = Return ([], "", Some err)) /\
     (forall resp,
        http_Do (HTTPRequest_Header_Set req "Authorization"
                   ("Bearer " +:+ accessToken c)) = inl resp ->
        (StatusCode resp <> 200%Z ->
         GetAppLogs baseURL Values_Encode http_NewRequest http_Do ErrorFromResp
           json_Decode c appName nextToken region instanceId
         = Return ([], "", Some (ErrorFromResp resp))) /\
        (StatusCode resp = 200%Z ->
         GetAppLogs baseURL Values_Encode http_NewRequest http_Do ErrorFromResp
           json_Decode c appName nextToken region instanceId
         = Return (getLogsResponse_Attributes <$>
                     getLogsResponse_Data_list (json_Decode (Body resp)).1,
                   getLogsResponse_Meta_NextToken (json_Decode (Body resp)).1,
                   None)))).
Proof.
  unfold GetAppLogs. split.
  - by intros ->.
  - intros req ->. simpl. split.
    + by intros err ->.
    + intros resp ->. split; intros Hs; case_decide; try done.
      destruct (json_Decode (Body resp)) as [result derr]. simpl.
      by rewrite GetAppLogs_fold.
Qed.

End LogsProperties.

Lemma GetAppLogs_outcome_witness :
  GetAppLogs "https://api.example" (fun _ => "next_token=")
    (fun method url => Some (mkHTTPRequest method url ∅))
    (fun _ => inl (mkResponse 200 "two entries"))
    (fun _ => ErrUnknown)
    (fun _ => (mkGetLogsResponse
                 [mkGetLogsResponse_Data "1" (mkLogEntry "t1" "started" "info" "i-1" "ord");
                  mkGetLogsResponse_Data "2" (mkLogEntry "t2" "stopped" "info" "i-1" "ord")]
                 "next", None))
    (mkClient "token") "app" "" "" ""
  = Return ([mkLogEntry "t1" "started" "info" "i-1" "ord";
             mkLogEntry "t2" "stopped" "info" "i-1" "ord"], "next", None).
Proof.
  refine (proj2 (proj2 (proj2 (GetAppLogs_outcome "https://api.example"
            (fun _ => "next_token=")
            (fun method url => Some (mkHTTPRequest method url ∅))
            (fun _ => inl (mkResponse 200 "two entries"))
            (fun _ => ErrUnknown)
            (fun _ => (mkGetLogsResponse
                 [mkGetLogsResponse_Data "1" (mkLogEntry "t1" "started" "info" "i-1" "ord");
                  mkGetLogsResponse_Data "2" (mkLogEntry "t2" "stopped" "info" "i-1" "ord")]
                 "next", None))
            (mkClient "token") "app" "" "" "")
            _ eq_refl) _ eq_refl) eq_refl).
Defined.

(* ===================================================================== *)
(** * The JSON decoder reads the first value, and always stops *)
(* ===================================================================== *)

Module JSONFacts.
Import JSON.


Lemma skip_space_length (s : list Ascii.ascii) : length (skip_space s) <= length s.
Proof.
  induction s as [|c t IH]; simpl; [done|]. destruct (isSpace c); simpl; lia.
Qed.

Lemma digits_length (s ds r : list Ascii.ascii) :
  digits s = (ds, r) -> length r <= length s.
Proof.
  revert ds r. induction s as [|c t IH]; intros ds r; simpl.
  - intros [= <- <-]. done.
  - destruct (isDigit c).
    + destruct (digits t) as [ds' r'] eqn:E. intros [= <- <-].
      specialize (IH _ _ eq_refl). lia.
    + intros [= <- <-]. simpl. lia.
Qed.

Lemma prepend_Some (p : list Ascii.ascii) r raw rest :
  prepend p r = Some (raw, rest) -> exists raw', r = Some (raw', rest).
Proof. destruct r as [[raw' rest']|]; simpl; [|done]. intros [= <- <-]. eauto. Qed.

Lemma scan_string_length (n : nat) (s raw rest : list Ascii.ascii) :
  length s <= n -> scan_string s = Some (raw, rest) -> length rest < length s.
Proof.
  revert s raw rest. induction n as [|n IH]; intros s raw rest Hn.
  - destruct s; [done|simpl in Hn; lia].
  - destruct s as [|c t]; [done|]. simpl in Hn. cbn [scan_string].
    destruct (code c =? 34)%N; [intros [= <- <-]; simpl; lia|].
    destruct (code c =? 92)%N.
    + destruct t as [|e t']; [done|]. simpl in Hn.
      destruct (isSimpleEscape e).
      * intros H. apply prepend_Some in H as [raw' H].
        apply IH in H; [simpl; lia | lia].
      * destruct (code e =? 117)%N; [|done].
        destruct t' as [|h1 [|h2 [|h3 [|h4 t'']]]]; try done.
        destruct (isHex h1 && isHex h2 && isHex h3 && isHex h4); [|done].
        intros H. apply prepend_Some in H as [raw' H].
        apply IH in H; [simpl; lia | simpl in Hn; lia].
    + destruct (code c <? 32)%N; [done|].
      intros H. apply prepend_Some in H as [raw' H].
      apply IH in H; [simpl; lia | lia].
Qed.

Lemma strip_prefix_length (p s r : list Ascii.ascii) :
  strip_prefix p s = Some r -> length r <= length s.
Proof.
  revert s. induction p as [|a p IH]; intros s; simpl.
  - by intros [= <-].
  - destruct s as [|b s]; [done|]. destruct (decide (a = b)); [|done].
    intros H. apply IH in H. simpl. lia.
Qed.

Lemma scan_number_length (s literal rest : list Ascii.ascii) :
  scan_number s = Some (literal, rest) -> length rest < length s.
Proof.
  unfold scan_number.
  set (signed := match s with
                 | c :: t => if (code c =? 45)%N then ([c], t) else ([], s)
                 | [] => ([], s)
                 end).
  assert (Hsign : length signed.2 <= length s).
  { subst signed. destruct s as [|c t]; [done|].
    destruct (code c =? 45)%N; simpl; lia. }
  destruct signed as [sign s1]. simpl in Hsign.
  destruct s1 as [|c t]; [done|]. simpl in Hsign.
  set (intpart := if (code c =? 48)%N then Some ([c], t)
                  else if isDigit c then let '(ds, r) := digits t in Some (c :: ds, r)
                  else None).
  assert (Hint : forall i s2, intpart = Some (i, s2) -> length s2 < length s).
  { subst intpart. intros i s2.
    destruct (code c =? 48)%N; [intros [= <- <-]; lia|].
    destruct (isDigit c); [|done].
    destruct (digits t) as [ds r] eqn:E. intros [= <- <-].
    apply digits_length in E. lia. }
  destruct intpart as [[int s2]|]; [|done]. specialize (Hint _ _ eq_refl).
  cbn [mbind option_bind].
  set (fracpart := match s2 with
                   | c0 :: t0 =>
                       if (code c0 =? 46)%N then
                         match digits t0 with
                         | ([], _) => None
                         | (ds, r) => Some (c0 :: ds, r)
                         end
                       else Some ([], s2)
                   | [] => Some ([], s2)
                   end).
  assert (Hfrac : forall f s3, fracpart = Some (f, s3) -> length s3 <= length s2).
  { subst fracpart. intros f s3. destruct s2 as [|c0 t0]; [by intros [= <- <-]|].
    destruct (code c0 =? 46)%N; [|by intros [= <- <-]].
    destruct (digits t0) as [ds r] eqn:E. apply digits_length in E.
    destruct ds; [done|]. intros [= <- <-]. simpl. lia. }
  destruct fracpart as [[frac s3]|]; [|done]. specialize (Hfrac _ _ eq_refl).
  cbn [mbind option_bind].
  set (exppart := match s3 with
                  | c0 :: t0 =>
                      if ((code c0 =? 101) || (code c0 =? 69))%N then
                        let '(sg, t1) :=
                          match t0 with
                          | d :: t' =>
                              if ((code d =? 43) || (code d =? 45))%N
                              then ([d], t') else ([], t0)
                          | [] => ([], t0)
                          end in
                        match digits t1 with
                        | ([], _) => None
                        | (ds, r) => Some (c0 :: sg ++ ds, r)
                        end
                      else Some ([], s3)
                  | [] => Some ([], s3)
                  end).
  assert (Hexp : forall e s4, exppart = Some (e, s4) -> length s4 <= length s3).
  { subst exppart. intros e s4. destruct s3 as [|c0 t0]; [by intros [= <- <-]|].
    destruct ((code c0 =? 101) || (code c0 =? 69))%N; [|by intros [= <- <-]].
    set (sgn := match t0 with
                | d :: t' =>
                    if ((code d =? 43) || (code d =? 45))%N then ([d], t') else ([], t0)
                | [] => ([], t0)
                end).
    assert (Hsg : length sgn.2 <= length t0).
    { subst sgn. destruct t0 as [|d t']; [done|].
      destruct ((code d =? 43) || (code d =? 45))%N; simpl; lia. }
    destruct sgn as [sg t1]. simpl in Hsg.
    destruct (digits t1) as [ds r] eqn:E. apply digits_length in E.
    destruct ds; [done|]. intros [= <- <-]. simpl. lia. }
  destruct exppart as [[exp s4]|]; [|done]. specialize (Hexp _ _ eq_refl).
  cbn [mbind option_bind]. intros [= <- <-]. lia.
Qed.

Lemma next_token_length (s rest : list Ascii.ascii) (tok : token) :
  next_token s = Some (tok, rest) -> length rest < length s.
Proof.
  unfold next_token. pose proof (skip_space_length s) as Hsp.
  destruct (skip_space s) as [|c t]; [done|]. simpl in Hsp. cbv zeta.
  repeat (match goal with
          | |- (if ?b then _ else _) = _ -> _ => destruct b
          end; [intros [= <- <-]; lia|]).
  destruct (code c =? 34)%N.
  { destruct (scan_string t) as [[raw r]|] eqn:E; [|done].
    apply (scan_string_length _ _ _ _ (le_n _)) in E.
    simpl. intros [= <- <-]. lia. }
  repeat (match goal with
          | |- (if ?b then _ else _) = _ -> _ => destruct b
          end;
          [match goal with
           | |- context [strip_prefix ?p t] =>
               destruct (strip_prefix p t) as [r|] eqn:E; [|done];
               apply strip_prefix_length in E; simpl; intros [= <- <-]; lia
           end|]).
  destruct (scan_number (c :: t)) as [[lit r]|] eqn:E; [|done].
  apply scan_number_length in E. simpl in *. intros [= <- <-]. lia.
Qed.

Lemma scan_fuel (fuel : nat) (m : mode) (stack : list frame) (s : list Ascii.ascii) :
  length s < fuel -> scan fuel m stack s <> OutOfFuel.
Proof.
  revert m stack s. induction fuel as [|fuel IH]; intros m stack s Hlen; [lia|].
  simpl. destruct (next_token s) as [[tok rest]|] eqn:E; [|done].
  apply next_token_length in E.
  destruct (step m stack tok); try done. apply IH. lia.
Qed.

Lemma first_value_total (s : list Ascii.ascii) : first_value s <> OutOfFuel.
Proof. apply scan_fuel. lia. Qed.


(** The decoder at work: a document with the token; a member of the
    wrong type, which is reported and does not stop the decoding; a text
    that breaks off. *)
Example Decode_examples :
  access_token_entry
    (Decode (String.concat dquote
       ["{"; "data"; ":{"; "attributes"; ":{"; "access_token"; ":"; "t"; "}}}"])).1
    = Some "t" /\
  (let r := Decode (String.concat dquote
       ["{"; "data"; ":{"; "id"; ":7,"; "attributes"; ":{"; "access_token"; ":"; "t"; "}}}"])
   in access_token_entry r.1 = Some "t" /\ is_Some r.2) /\
  Decode (String.concat dquote ["{"; "data"; ":{"]) =
    (∅, Some (errors_New "json: invalid character or unexpected end of JSON input")).
Proof. split_and!; try (by vm_compute). vm_compute. eauto. Qed.

End JSONFacts.

(* ===================================================================== *)
(** * C10: the body [GetAccessToken] gets no token from *)
(* ===================================================================== *)

Section SessionBody.
Variable baseURL : string.
Variable http_Post : string -> string -> value -> Response + error.


End SessionBody.



Example GetAccessToken_token_before_garbage_value :
  GetAccessToken "https://api.example"
    (stub_Post (mkResponse 200 stub_body_token_then_garbage))
    JSON.Decode "a@example.com" "secret" ""
  = ("tok-123", None).
Proof. by vm_compute. Qed.
